(** * IDS7 AI client: a shallow embedding of [ids7client/ai/client.py]

    The client is a thin typed wrapper over JSON-over-HTTP calls.  The model
    follows the Python class [IDS7AIClient] method by method:

    - the object ([self]) is a record with the five [__slots__]; it lives in
      the state that every method threads, so a method of the model could
      mutate it exactly as a Python method could;
    - the network is an oracle: given the requests already attempted and the
      request being sent it answers with a connection fault or a response;
      every attempt is recorded in a log;
    - Python exceptions are the [Raise] results of a state-and-error monad. *)

From stdpp Require Import gmap strings list fin_maps.
From Stdlib Require Import ZArith QArith.

Set Warnings "-register-all".
Open Scope string_scope.
Open Scope Z_scope.
Open Scope list_scope.

(** ** JSON payloads and HTTP data *)

(** Modelled from the spec: the alias [JSONPayload] is declared in
    [helpers.py], which is not part of the sources.  It stands for what
    [resp.json()] and [model_dump()] produce (section 4.3: a mapping of
    string keys to JSON values): Python values built from [None], [bool],
    [int], [float], [str], [list] and [dict] with string keys.  A float is
    kept as a rational; no claim depends on its arithmetic. *)
Inductive JSONPayload : Type :=
| JNull
| JBool (b : bool)
| JInt (z : Z)
| JFloat (q : Q)
| JStr (s : string)
| JList (l : list JSONPayload)
| JDict (d : gmap string JSONPayload).

Inductive Method : Type := GET | POST | PUT.

(** One call of [requests.get], [requests.post] or [requests.put]: the URL,
    the [params=] mapping (GET), the [json=] body (POST and PUT), and the
    [headers=] mapping. *)
Record Request : Type := mkRequest {
  req_method : Method;
  req_url : string;
  req_params : gmap string string;
  req_json : option JSONPayload;
  req_headers : gmap string string
}.

(** A [requests.Response] as the client reads it: [status_code], [text], and
    what [json()] returns ([None] when the body does not decode). *)
Record Response : Type := mkResponse {
  status_code : Z;
  text : string;
  json : option JSONPayload
}.

(** Connection-level faults, as section 4.2 of the specification lists
    them: no HTTP response was received. *)
Inductive Fault : Type := ConnectionRefused | Timeout | DNSFailure.

Inductive Outcome : Type :=
| Failed (f : Fault)
| Received (r : Response).

(** ** Exceptions *)

(** [IDS7RequestError] is declared in [errors.py], which is not part of the
    sources; the class builds it from a status code, a body text and a path.
    [ValidationError] is what a record constructor raises, [TransportError]
    what [requests] raises when no response arrives, [JSONDecodeError] what
    [json()] raises, [TypeError] what unpacking a non-mapping raises. *)
Inductive Exception : Type :=
| IDS7RequestError (status : Z) (body : string) (path : string)
| ValidationError
| TransportError (f : Fault)
| JSONDecodeError
| TypeError.

Inductive result (A : Type) : Type :=
| Ok (a : A)
| Raise (e : Exception).
Arguments Ok {A} a.
Arguments Raise {A} e.

Definition is_request_error {A} (r : result A) : bool :=
  match r with
  | Raise (IDS7RequestError _ _ _) => true
  | _ => false
  end.

(** ** Typed records ([schemas.py]) *)

(** Modelled from the spec: [schemas.py] is not part of the sources.  Section
    3 gives [ApplicationInfo] as the record of two strings, [apiVersion] and
    [softwareVersion]. *)
Record ApplicationInfo : Type := mkApplicationInfo {
  apiVersion : string;
  softwareVersion : string
}.

(** Modelled from the spec: the field lists of [ImageInfo] and
    [ResultResponse] are not given; section 4.3 describes a record shape as
    fields that are required or not, each of a type, and the validator as
    rejecting a payload in which a required field is missing or a field is of
    the wrong type. *)
Inductive FieldType : Type := TStr | TInt | TFloat | TBool | TList | TDict | TAny.

(** Modelled from the spec: one field of a record shape (section 4.3). *)
Record Field : Type := mkField {
  field_name : string;
  field_type : FieldType;
  field_required : bool
}.

(** Modelled from the spec: a record shape (section 4.3). *)
Definition Shape : Type := list Field.

(** Modelled from the spec: whether a JSON value is of the type a field
    declares (section 4.3, of the wrong type). *)
Definition has_type (t : FieldType) (v : JSONPayload) : bool :=
  match t, v with
  | TStr, JStr _ => true
  | TInt, JInt _ => true
  | TFloat, JFloat _ => true
  | TFloat, JInt _ => true
  | TBool, JBool _ => true
  | TList, JList _ => true
  | TDict, JDict _ => true
  | TAny, _ => true
  | _, _ => false
  end.

(** Modelled from the spec: a field is accepted when it is present with a
    value of its type, or absent and not required (section 4.3). *)
Definition field_ok (kw : gmap string JSONPayload) (f : Field) : bool :=
  match kw !! field_name f with
  | Some v => has_type (field_type f) v
  | None => negb (field_required f)
  end.

(** Modelled from the spec: the validator accepts a payload when every
    field of the shape is accepted (section 4.3). *)
Definition conforms (sh : Shape) (kw : gmap string JSONPayload) : bool :=
  forallb (field_ok kw) sh.

(** Modelled from the spec: the shape of [ApplicationInfo] (section 3), both
    fields required strings. *)
Definition ApplicationInfo_shape : Shape :=
  [ mkField "apiVersion" TStr true; mkField "softwareVersion" TStr true ].

(** Modelled from the spec: the constructor call of [ApplicationInfo] on
    the keyword arguments [kw] ([schemas.py] is not part of the sources):
    the record of the two strings, or the validation error (sections 3 and
    4.3). *)
Definition ApplicationInfo_new (kw : gmap string JSONPayload) : result ApplicationInfo :=
  match kw !! "apiVersion", kw !! "softwareVersion" with
  | Some (JStr a), Some (JStr s) => Ok (mkApplicationInfo a s)
  | _, _ => Raise ValidationError
  end.

(** Modelled from the spec: [ImageInfo] and [ResultResponse] are declared in
    [schemas.py], which is not part of the sources, and the specification
    does not list their fields; a record is kept as the validated mapping. *)
Record ImageInfo : Type := mkImageInfo { ImageInfo_fields : gmap string JSONPayload }.

(** Modelled from the spec: see [ImageInfo]. *)
Record ResultResponse : Type := mkResultResponse { ResultResponse_fields : gmap string JSONPayload }.

(** ** The client object and the monad of its methods *)

(** The five [__slots__].  [ids7_version] is unset until
    [_retrieve_ids7_versions] has returned. *)
Record IDS7AIClient : Type := mkClient {
  _url : string;
  _token : string;
  _app_id : string;
  _headers : gmap string string;
  ids7_version : option ApplicationInfo
}.

(** What a method can read and write: the object, and the log of the
    requests attempted so far, most recent first. *)
Record State : Type := mkState {
  self : IDS7AIClient;
  sent : list Request
}.

Definition M (A : Type) : Type := State -> result A * State.

Definition ret {A} (a : A) : M A := fun st => (Ok a, st).
Definition raise {A} (e : Exception) : M A := fun st => (Raise e, st).
Definition bind {A B} (m : M A) (k : A -> M B) : M B :=
  fun st =>
    match m st with
    | (Ok a, st') => k a st'
    | (Raise e, st') => (Raise e, st')
    end.
Definition get_self : M IDS7AIClient := fun st => (Ok (self st), st).
Definition put_self (c : IDS7AIClient) : M unit :=
  fun st => (Ok tt, mkState c (sent st)).
Definition lift {A} (r : result A) : M A := fun st => (r, st).

Notation "'let*' x ':=' m 'in' k" := (bind m (fun x => k))
  (at level 10, x name, m at level 100, k at level 200).

(** Unpacking a payload into keyword arguments (the double-star call after
    [cast]): anything but a mapping is a [TypeError]. *)
Definition kwargs_of (v : JSONPayload) : result (gmap string JSONPayload) :=
  match v with
  | JDict d => Ok d
  | _ => Raise TypeError
  end.

Definition set_headers (c : IDS7AIClient) (h : gmap string string) : IDS7AIClient :=
  mkClient (_url c) (_token c) (_app_id c) h (ids7_version c).

Definition set_ids7_version (c : IDS7AIClient) (v : ApplicationInfo) : IDS7AIClient :=
  mkClient (_url c) (_token c) (_app_id c) (_headers c) (Some v).

(** Whether a payload is a mapping, the only thing the double-star call
    unpacks. *)
Definition is_mapping (v : JSONPayload) : bool :=
  match v with
  | JDict _ => true
  | _ => false
  end.

(** ** Concrete servers and responses, for the examples *)

Definition info_ok : Response :=
  mkResponse 200 "{apiVersion: 1.0, softwareVersion: 7.2}"
    (Some (JDict {[ "apiVersion" := JStr "1.0"; "softwareVersion" := JStr "7.2" ]})).

Definition info_incomplete : Response :=
  mkResponse 200 "{apiVersion: 1.0}" (Some (JDict {[ "apiVersion" := JStr "1.0" ]})).

Definition not_found : Response := mkResponse 404 "Not Found" None.

Definition created : Response :=
  mkResponse 201 "{id: abc123}" (Some (JDict {[ "id" := JStr "abc123" ]})).

Definition found : Response :=
  mkResponse 200 "{id: abc123}" (Some (JDict {[ "id" := JStr "abc123" ]})).

Definition empty_object : Response := mkResponse 200 "{}" (Some (JDict ∅)).

(** Answers whose body is no JSON text, and one whose body is a JSON
    list. *)
Definition accepted : Response := mkResponse 201 "accepted" None.

Definition plain_ok : Response := mkResponse 200 "OK" None.

Definition list_body : Response := mkResponse 200 "[]" (Some (JList [])).

(** A server that answers every request with [r]. *)
Definition always (r : Response) : list Request -> Request -> Outcome :=
  fun _ _ => Received r.

(** A network that is down. *)
Definition down : list Request -> Request -> Outcome :=
  fun _ _ => Failed ConnectionRefused.

(** The first attempt of all times out; every later one is answered with
    [r]. *)
Definition flaky (r : Response) : list Request -> Request -> Outcome :=
  fun log _ =>
    match log with
    | [] => Failed Timeout
    | _ :: _ => Received r
    end.

(** A server that answers by method: [created] to a POST, [found] to
    anything else. *)
Definition by_method : list Request -> Request -> Outcome :=
  fun _ req =>
    match req_method req with
    | POST => Received created
    | _ => Received found
    end.

(** The request construction sends for the sample client. *)
Definition info_request : Request :=
  mkRequest GET "https://ids7/info" ∅ None {[ "Authorization" := "Bearer secret" ]}.

(** A caller's result that dumps to an object with one number. *)
Definition score : JSONPayload := JDict {[ "score" := JFloat (9 # 10) ]}.

(** A record shape with the one required string field [id]. *)
Definition id_shape : Shape := [ mkField "id" TStr true ].

(** A client as construction against [always info_ok] leaves it. *)
Definition sample_client : IDS7AIClient :=
  mkClient "https://ids7" "secret" "app1"
    (<["X-Sectra-SoftwareVersion" := "7.2"]>
       (<["X-Sectra-ApiVersion" := "1.0"]> {[ "Authorization" := "Bearer secret" ]}))
    (Some (mkApplicationInfo "1.0" "7.2")).

Section Client.

(** ** What lies outside the class *)

(** The network: what the server, or the path to it, answers to a request,
    given the requests attempted before it (most recent first). *)
Variable transport : list Request -> Request -> Outcome.

(** The caller's [Result] records ([schemas.py], not part of the sources)
    and their [model_dump]. *)
Variable Result : Type.
Variable model_dump : Result -> JSONPayload.

(** The record shapes of [ImageInfo] and [ResultResponse] ([schemas.py], not
    part of the sources). *)
Variable ImageInfo_shape : Shape.
Variable ResultResponse_shape : Shape.

(** The number of times [connection_retry] attempts a call again
    ([helpers.py], not part of the sources; the specification says bounded
    and gives no number). *)
Variable max_retries : nat.

(** One call into [requests]: the attempt is logged, and the transport
    either raises or hands back a response. *)
Definition send (req : Request) : M Response :=
  fun st =>
    let st' := mkState (self st) (req :: sent st) in
    match transport (sent st) req with
    | Failed f => (Raise (TransportError f), st')
    | Received r => (Ok r, st')
    end.

Definition requests_get (url : string) (params headers : gmap string string) : M Response :=
  send (mkRequest GET url params None headers).

Definition requests_post (url : string) (body : JSONPayload) (headers : gmap string string) : M Response :=
  send (mkRequest POST url ∅ (Some body) headers).

Definition requests_put (url : string) (body : JSONPayload) (headers : gmap string string) : M Response :=
  send (mkRequest PUT url ∅ (Some body) headers).

Definition resp_json (resp : Response) : M JSONPayload :=
  match json resp with
  | Some j => ret j
  | None => raise JSONDecodeError
  end.

(** Modelled from the spec: [helpers.connection_retry] is not part of the
    sources.  Section 4.2: the wrapped call is attempted again a bounded
    number of times on a transient connection failure, and not on a received
    response of any status; section 7: when the retries are exhausted the
    transport error surfaces.  Any other exception passes through. *)
Fixpoint retry_loop {A} (n : nat) (call : M A) : M A :=
  fun st =>
    match call st with
    | (Raise (TransportError f), st') =>
        match n with
        | O => (Raise (TransportError f), st')
        | S k => retry_loop k call st'
        end
    | other => other
    end.

(** Modelled from the spec: the decorator [connection_retry()] of
    [helpers.py], not part of the sources, as the loop above with the bound
    [max_retries]. *)
Definition connection_retry {A} (call : M A) : M A := retry_loop max_retries call.

(** The body of [_get], before decoration. *)
Definition _get_call (path : string) (kwargs : gmap string string) : M JSONPayload :=
  let* c := get_self in
  let url := _url c +:+ path in
  let* resp := requests_get url kwargs (_headers c) in
  if negb (status_code resp =? 200)
  then raise (IDS7RequestError (status_code resp) (text resp) path)
  else resp_json resp.

Definition _get (path : string) (kwargs : gmap string string) : M JSONPayload :=
  connection_retry (_get_call path kwargs).

Definition _post_call (path : string) (payload : JSONPayload) (parse_response : bool)
  : M (option JSONPayload) :=
  let* c := get_self in
  let url := _url c +:+ path in
  let* resp := requests_post url payload (_headers c) in
  if negb (status_code resp =? 201)
  then raise (IDS7RequestError (status_code resp) (text resp) path)
  else if parse_response
       then (let* j := resp_json resp in ret (Some j))
       else ret None.

Definition _post (path : string) (payload : JSONPayload) (parse_response : bool)
  : M (option JSONPayload) :=
  connection_retry (_post_call path payload parse_response).

Definition _put_call (path : string) (values : JSONPayload) (parse_response : bool)
  : M (option JSONPayload) :=
  let* c := get_self in
  let url := _url c +:+ path in
  let* resp := requests_put url values (_headers c) in
  if negb (status_code resp =? 200)
  then raise (IDS7RequestError (status_code resp) (text resp) path)
  else if parse_response
       then (let* j := resp_json resp in ret (Some j))
       else ret None.

Definition _put (path : string) (values : JSONPayload) (parse_response : bool)
  : M (option JSONPayload) :=
  connection_retry (_put_call path values parse_response).

(** Modelled from the spec: the constructor call of [ImageInfo]
    ([schemas.py] is not part of the sources), validating against its shape
    (section 4.3). *)
Definition ImageInfo_new (kw : gmap string JSONPayload) : result ImageInfo :=
  if conforms ImageInfo_shape kw then Ok (mkImageInfo kw) else Raise ValidationError.

(** Modelled from the spec: the constructor call of [ResultResponse]
    ([schemas.py] is not part of the sources), validating against its shape
    (section 4.3). *)
Definition ResultResponse_new (kw : gmap string JSONPayload) : result ResultResponse :=
  if conforms ResultResponse_shape kw then Ok (mkResultResponse kw) else Raise ValidationError.

(** Unpacking an [Optional] payload: [None] is no mapping either. *)
Definition kwargs_of_opt (v : option JSONPayload) : result (gmap string JSONPayload) :=
  match v with
  | Some j => kwargs_of j
  | None => Raise TypeError
  end.

Definition _retrieve_ids7_versions : M ApplicationInfo :=
  let* j := _get "/info" ∅ in
  let* kw := lift (kwargs_of j) in
  let* versions := lift (ApplicationInfo_new kw) in
  let* c := get_self in
  let* _ := put_self (set_headers c
              (<["X-Sectra-SoftwareVersion" := softwareVersion versions]>
                (<["X-Sectra-ApiVersion" := apiVersion versions]> (_headers c)))) in
  ret versions.

(** [__init__]: the four assignments, then the version lookup. *)
Definition __init__ (url token app_id : string) : M unit :=
  let* _ := put_self (mkClient url token app_id {[ "Authorization" := "Bearer " +:+ token ]} None) in
  let* v := _retrieve_ids7_versions in
  let* c := get_self in
  put_self (set_ids7_version c v).

(** The object before [__init__] has run: every slot is overwritten before
    it is read. *)
Definition blank : IDS7AIClient := mkClient "" "" "" ∅ None.

(** The call [IDS7AIClient(url, token, app_id)] with [log] the requests
    attempted so far: the new object when [__init__] returns, the exception
    and no object when it raises. *)
Definition new (url token app_id : string) (log : list Request)
  : result IDS7AIClient * list Request :=
  match __init__ url token app_id (mkState blank log) with
  | (Ok _, st) => (Ok (self st), sent st)
  | (Raise e, st) => (Raise e, sent st)
  end.

Definition get_image_info (slide_id : string) (extended phi : bool) : M ImageInfo :=
  let path := "/slides/" +:+ slide_id +:+ "/info" in
  let params : gmap string string := ∅ in
  let params := if extended then <["scope" := "extended"]> params else params in
  let params := if phi then <["includePHI" := "true"]> params else params in
  let* j := _get path params in
  let* kw := lift (kwargs_of j) in
  lift (ImageInfo_new kw).

Definition create_results (results : Result) : M ResultResponse :=
  let* c := get_self in
  let path := "/applications/" +:+ _app_id c +:+ "/results" in
  let* resp := _post path (model_dump results) true in
  let* kw := lift (kwargs_of_opt resp) in
  lift (ResultResponse_new kw).

Definition get_results (id : string) : M ResultResponse :=
  let* c := get_self in
  let path := "/application/" +:+ _app_id c +:+ "/results/" +:+ id in
  let* j := _get path ∅ in
  let* kw := lift (kwargs_of j) in
  lift (ResultResponse_new kw).

Definition update_results (id : string) (results : Result) : M ResultResponse :=
  let* c := get_self in
  let path := "/application/" +:+ _app_id c +:+ "/results/" +:+ id in
  let* resp := _put path (model_dump results) true in
  let* kw := lift (kwargs_of_opt resp) in
  lift (ResultResponse_new kw).

(** ** Reading the log *)

(** What the transport answered to the most recent attempt in a log. *)
Definition last_outcome (log : list Request) : option Outcome :=
  match log with
  | req :: earlier => Some (transport earlier req)
  | [] => None
  end.

(** The attempts a call added to the log, most recent first. *)
Definition issued (before after : list Request) : list Request :=
  take (length after - length before)%nat after.

(** The same request attempted until a response arrives, at most [S n]
    times: the last answer and the log. *)
Fixpoint await (n : nat) (log : list Request) (req : Request) : Outcome * list Request :=
  match transport log req with
  | Failed f =>
      match n with
      | O => (Failed f, req :: log)
      | S k => await k (req :: log) req
      end
  | Received r => (Received r, req :: log)
  end.

(** The shape the three bodies share: build a request from the object, send
    it, and compute the result from the response without touching the
    state. *)
Definition exchange {A} (mk : IDS7AIClient -> Request) (post : Response -> result A) : M A :=
  fun st =>
    let req := mk (self st) in
    let st' := mkState (self st) (req :: sent st) in
    match transport (sent st) req with
    | Failed f => (Raise (TransportError f), st')
    | Received r => (post r, st')
    end.

Definition finish {A} (post : Response -> result A) (c : IDS7AIClient)
  (end_ : Outcome * list Request) : result A * State :=
  (match fst end_ with
   | Failed f => Raise (TransportError f)
   | Received r => post r
   end, mkState c (snd end_)).

(** The result each body computes from a response. *)
Definition get_result (path : string) (resp : Response) : result JSONPayload :=
  if negb (status_code resp =? 200)
  then Raise (IDS7RequestError (status_code resp) (text resp) path)
  else match json resp with
       | Some j => Ok j
       | None => Raise JSONDecodeError
       end.

Definition body_result (expected : Z) (path : string) (parse_response : bool) (resp : Response)
  : result (option JSONPayload) :=
  if negb (status_code resp =? expected)
  then Raise (IDS7RequestError (status_code resp) (text resp) path)
  else if parse_response
       then match json resp with
            | Some j => Ok (Some j)
            | None => Raise JSONDecodeError
            end
       else Ok None.

(** The next [k] attempts of [req], starting from [log], all end in a
    connection fault. *)
Definition is_fault (o : Outcome) : bool :=
  match o with
  | Failed _ => true
  | Received _ => false
  end.

Fixpoint faults (k : nat) (log : list Request) (req : Request) : bool :=
  match k with
  | O => true
  | S k' => is_fault (transport log req) && faults k' (req :: log) req
  end.

(** A payload that a record shape rejects: a required field is missing, or a
    field is present with a value of the wrong type. *)
Inductive malformed (sh : Shape) (kw : gmap string JSONPayload) : Prop :=
| missing_field (f : Field) :
    In f sh -> field_required f = true -> kw !! field_name f = None -> malformed sh kw
| wrong_type (f : Field) (v : JSONPayload) :
    In f sh -> kw !! field_name f = Some v -> has_type (field_type f) v = false ->
    malformed sh kw.

(** The four public operations as values, to speak of sequences of calls. *)
Inductive Call : Type :=
| GetImageInfo (slide_id : string) (extended phi : bool)
| CreateResults (results : Result)
| GetResults (id : string)
| UpdateResults (id : string) (results : Result).

(** The state a call leaves, whether it returns or raises. *)
Definition run_call (call : Call) (st : State) : State :=
  match call with
  | GetImageInfo slide_id extended phi => snd (get_image_info slide_id extended phi st)
  | CreateResults results => snd (create_results results st)
  | GetResults id => snd (get_results id st)
  | UpdateResults id results => snd (update_results id results st)
  end.

Definition run_calls (calls : list Call) (st : State) : State :=
  foldl (fun st call => run_call call st) st calls.

(** The request each operation builds from the object. *)
Definition image_info_params (extended phi : bool) : gmap string string :=
  let params : gmap string string := ∅ in
  let params := if extended then <["scope" := "extended"]> params else params in
  if phi then <["includePHI" := "true"]> params else params.

Definition request_of (call : Call) (c : IDS7AIClient) : Request :=
  match call with
  | GetImageInfo slide_id extended phi =>
      mkRequest GET (_url c +:+ "/slides/" +:+ slide_id +:+ "/info")
        (image_info_params extended phi) None (_headers c)
  | CreateResults results =>
      mkRequest POST (_url c +:+ "/applications/" +:+ _app_id c +:+ "/results")
        ∅ (Some (model_dump results)) (_headers c)
  | GetResults id =>
      mkRequest GET (_url c +:+ "/application/" +:+ _app_id c +:+ "/results/" +:+ id)
        ∅ None (_headers c)
  | UpdateResults id results =>
      mkRequest PUT (_url c +:+ "/application/" +:+ _app_id c +:+ "/results/" +:+ id)
        ∅ (Some (model_dump results)) (_headers c)
  end.

(** Validation of what a decorated method handed back. *)
Definition parse_with {A} (mk : gmap string JSONPayload -> result A)
  (r : result JSONPayload) : result A :=
  match r with
  | Ok j =>
      match kwargs_of j with
      | Ok kw => mk kw
      | Raise e => Raise e
      end
  | Raise e => Raise e
  end.

Definition parse_opt_with {A} (mk : gmap string JSONPayload -> result A)
  (r : result (option JSONPayload)) : result A :=
  match r with
  | Ok v =>
      match kwargs_of_opt v with
      | Ok kw => mk kw
      | Raise e => Raise e
      end
  | Raise e => Raise e
  end.

(** The exception a result carries, if any. *)
Definition error_of {A} (r : result A) : option Exception :=
  match r with
  | Ok _ => None
  | Raise e => Some e
  end.

(** A call with its result forgotten but for the exception. *)
Definition outcome_of (call : Call) (st : State) : option Exception * State :=
  match call with
  | GetImageInfo slide_id extended phi =>
      (error_of (fst (get_image_info slide_id extended phi st)),
       snd (get_image_info slide_id extended phi st))
  | CreateResults results =>
      (error_of (fst (create_results results st)), snd (create_results results st))
  | GetResults id =>
      (error_of (fst (get_results id st)), snd (get_results id st))
  | UpdateResults id results =>
      (error_of (fst (update_results id results st)), snd (update_results id results st))
  end.

(** The path, the success status and the record shape of each operation. *)
Definition path_of (call : Call) (c : IDS7AIClient) : string :=
  match call with
  | GetImageInfo slide_id _ _ => "/slides/" +:+ slide_id +:+ "/info"
  | CreateResults _ => "/applications/" +:+ _app_id c +:+ "/results"
  | GetResults id => "/application/" +:+ _app_id c +:+ "/results/" +:+ id
  | UpdateResults id _ => "/application/" +:+ _app_id c +:+ "/results/" +:+ id
  end.

Definition expected_status (call : Call) : Z :=
  match call with
  | CreateResults _ => 201
  | _ => 200
  end.

Definition shape_of (call : Call) : Shape :=
  match call with
  | GetImageInfo _ _ _ => ImageInfo_shape
  | _ => ResultResponse_shape
  end.

(** What a call raises once the exchange has ended with the response
    [resp]: a request error on an unexpected status; otherwise whatever
    decoding, unpacking and validation raise. *)
Definition error_after (call : Call) (c : IDS7AIClient) (resp : Response) : option Exception :=
  if negb (status_code resp =? expected_status call)
  then Some (IDS7RequestError (status_code resp) (text resp) (path_of call c))
  else match json resp with
       | None => Some JSONDecodeError
       | Some (JDict kw) =>
           if conforms (shape_of call) kw then None else Some ValidationError
       | Some _ => Some TypeError
       end.

(** The request-error rule, read off the log a call leaves: the result is a
    request error exactly when the last attempt was answered with a response
    whose status is not the expected one, and the error then carries that
    status, that body text and the path. *)
Definition request_error_law {A} (expected : Z) (path : string)
  (res : result A) (log : list Request) : Prop :=
  (is_request_error res = true <->
   exists r, last_outcome log = Some (Received r) /\ status_code r <> expected) /\
  (forall r,
     last_outcome log = Some (Received r) -> status_code r <> expected ->
     res = Raise (IDS7RequestError (status_code r) (text r) path)).

(** ** The retry loop *)

Lemma retry_loop_ext {A} (f g : M A) :
  (forall st, f st = g st) -> forall n st, retry_loop n f st = retry_loop n g st.
Proof.
  intros Hfg n. induction n as [|n IH]; intros st; simpl; rewrite Hfg.
  - reflexivity.
  - destruct (g st) as [[a|[]] st']; auto.
Qed.

Lemma retry_exchange {A} (mk : IDS7AIClient -> Request) (post : Response -> result A) :
  (forall r f, post r <> Raise (TransportError f)) ->
  forall n st,
    retry_loop n (exchange mk post) st
    = finish post (self st) (await n (sent st) (mk (self st))).
Proof.
  intros Hpost n. induction n as [|n IH]; intros st.
  - simpl. unfold exchange, finish.
    destruct (transport (sent st) (mk (self st))) as [f|r] eqn:E; simpl; [reflexivity|].
    destruct (post r) as [a|e] eqn:P; [reflexivity|].
    destruct e; reflexivity.
  - simpl. unfold exchange at 1.
    destruct (transport (sent st) (mk (self st))) as [f|r] eqn:E; simpl.
    + rewrite IH. reflexivity.
    + unfold finish; simpl.
      destruct (post r) as [a|e] eqn:P; [reflexivity|].
      destruct e; try reflexivity. exfalso. eapply Hpost; eauto.
Qed.

Lemma get_result_not_transport path r f : get_result path r <> Raise (TransportError f).
Proof.
  unfold get_result. destruct (negb _); [discriminate|]. destruct (json r); discriminate.
Qed.

Lemma body_result_not_transport expected path pr r f :
  body_result expected path pr r <> Raise (TransportError f).
Proof.
  unfold body_result. destruct (negb _); [discriminate|].
  destruct pr; [|discriminate]. destruct (json r); discriminate.
Qed.

Lemma _get_call_exchange path kwargs st :
  _get_call path kwargs st
  = exchange (fun c => mkRequest GET (_url c +:+ path) kwargs None (_headers c))
             (get_result path) st.
Proof.
  unfold _get_call, exchange, bind, get_self, requests_get, send, get_result; simpl.
  destruct (transport _ _) as [f|r]; [reflexivity|].
  destruct (negb _); [reflexivity|].
  unfold resp_json. destruct (json r); reflexivity.
Qed.

Lemma _post_call_exchange path payload pr st :
  _post_call path payload pr st
  = exchange (fun c => mkRequest POST (_url c +:+ path) ∅ (Some payload) (_headers c))
             (body_result 201 path pr) st.
Proof.
  unfold _post_call, exchange, bind, get_self, requests_post, send, body_result; simpl.
  destruct (transport _ _) as [f|r]; [reflexivity|].
  destruct (negb _); [reflexivity|].
  destruct pr; [|reflexivity].
  unfold resp_json, bind, ret, raise. destruct (json r); reflexivity.
Qed.

Lemma _put_call_exchange path values pr st :
  _put_call path values pr st
  = exchange (fun c => mkRequest PUT (_url c +:+ path) ∅ (Some values) (_headers c))
             (body_result 200 path pr) st.
Proof.
  unfold _put_call, exchange, bind, get_self, requests_put, send, body_result; simpl.
  destruct (transport _ _) as [f|r]; [reflexivity|].
  destruct (negb _); [reflexivity|].
  destruct pr; [|reflexivity].
  unfold resp_json, bind, ret, raise. destruct (json r); reflexivity.
Qed.

(** The three decorated methods, as one exchange each. *)
Lemma _get_await path kwargs st :
  _get path kwargs st
  = finish (get_result path) (self st)
      (await max_retries (sent st)
         (mkRequest GET (_url (self st) +:+ path) kwargs None (_headers (self st)))).
Proof.
  unfold _get, connection_retry.
  rewrite (retry_loop_ext _ _ (_get_call_exchange path kwargs)).
  apply (retry_exchange (fun c => mkRequest GET (_url c +:+ path) kwargs None (_headers c))).
  apply get_result_not_transport.
Qed.

Lemma _post_await path payload pr st :
  _post path payload pr st
  = finish (body_result 201 path pr) (self st)
      (await max_retries (sent st)
         (mkRequest POST (_url (self st) +:+ path) ∅ (Some payload) (_headers (self st)))).
Proof.
  unfold _post, connection_retry.
  rewrite (retry_loop_ext _ _ (_post_call_exchange path payload pr)).
  apply (retry_exchange (fun c => mkRequest POST (_url c +:+ path) ∅ (Some payload) (_headers c))).
  apply body_result_not_transport.
Qed.

Lemma _put_await path values pr st :
  _put path values pr st
  = finish (body_result 200 path pr) (self st)
      (await max_retries (sent st)
         (mkRequest PUT (_url (self st) +:+ path) ∅ (Some values) (_headers (self st)))).
Proof.
  unfold _put, connection_retry.
  rewrite (retry_loop_ext _ _ (_put_call_exchange path values pr)).
  apply (retry_exchange (fun c => mkRequest PUT (_url c +:+ path) ∅ (Some values) (_headers c))).
  apply body_result_not_transport.
Qed.

(** ** The exchange *)

Lemma replicate_snoc_cons {A} (k : nat) (x : A) (l : list A) :
  replicate k x ++ x :: l = x :: replicate k x ++ l.
Proof. induction k as [|k IH]; simpl; [reflexivity | by rewrite IH]. Qed.

Lemma issued_app (l log : list Request) : issued log (l ++ log) = l.
Proof.
  unfold issued. apply take_app_length'. rewrite length_app. lia.
Qed.

(** An exchange makes between one and [S n] attempts of the same request;
    all but the last end in a fault, and it ends in a fault only when every
    attempt allowed has been made. *)
Lemma await_spec n log req :
  exists k, (1 <= k <= S n)%nat /\
    snd (await n log req) = replicate k req ++ log /\
    fst (await n log req) = transport (replicate (k - 1) req ++ log) req /\
    faults (k - 1) log req = true /\
    (is_fault (fst (await n log req)) = true -> k = S n).
Proof.
  revert log. induction n as [|n IH]; intros log; simpl.
  - exists 1%nat. destruct (transport log req) as [f|r] eqn:E; simpl; rewrite ?E; repeat split; auto; lia.
  - destruct (transport log req) as [f|r] eqn:E.
    + destruct (IH (req :: log)) as (k & Hk & Hlog & Hout & Hf & Hlast).
      exists (S k). rewrite Hlog, Hout.
      replace (S k - 1)%nat with (S (k - 1)) by lia. simpl.
      rewrite !replicate_snoc_cons, E. simpl.
      repeat split; auto; try lia.
      intros H. rewrite <- replicate_snoc_cons, <- Hout in H. by rewrite Hlast.
    + exists 1%nat. simpl. rewrite E. repeat split; auto; lia.
Qed.

(** After [k] faults, with [k] retries allowed, the exchange ends with the
    answer to attempt [S k]. *)
Lemma await_after_faults n log req k o :
  (k <= n)%nat -> faults k log req = true ->
  transport (replicate k req ++ log) req = o ->
  (is_fault o = true -> k = n) ->
  await n log req = (o, replicate (S k) req ++ log).
Proof.
  revert n log. induction k as [|k IH]; intros n log Hk Hf Ho Hlast; simpl in *.
  - destruct n; simpl; rewrite Ho; destruct o; try reflexivity.
    discriminate (Hlast eq_refl).
  - destruct n as [|n]; [lia|]. simpl.
    apply andb_true_iff in Hf as [Hf1 Hf2].
    destruct (transport log req) as [f|r]; [|discriminate].
    rewrite (IH n (req :: log)).
    + by rewrite replicate_snoc_cons.
    + lia.
    + exact Hf2.
    + by rewrite replicate_snoc_cons.
    + intros H. apply Hlast in H. lia.
Qed.

(** ** The public operations, as one exchange each *)

Lemma get_image_info_await slide_id extended phi st :
  get_image_info slide_id extended phi st
  = finish (fun r => parse_with ImageInfo_new
                       (get_result ("/slides/" +:+ slide_id +:+ "/info") r))
      (self st)
      (await max_retries (sent st)
         (request_of (GetImageInfo slide_id extended phi) (self st))).
Proof.
  unfold get_image_info, bind. rewrite _get_await. unfold finish, request_of.
  unfold image_info_params. simpl.
  destruct (await _ _ _) as [[f|r] log']; simpl; [reflexivity|].
  destruct (get_result _ r) as [j|e]; simpl; [|reflexivity].
  unfold lift. destruct (kwargs_of j); reflexivity.
Qed.

Lemma get_results_await id st :
  get_results id st
  = finish (fun r => parse_with ResultResponse_new
                       (get_result ("/application/" +:+ _app_id (self st) +:+ "/results/" +:+ id) r))
      (self st)
      (await max_retries (sent st) (request_of (GetResults id) (self st))).
Proof.
  unfold get_results, bind, get_self. rewrite _get_await. unfold finish, request_of. simpl.
  destruct (await _ _ _) as [[f|r] log']; simpl; [reflexivity|].
  destruct (get_result _ r) as [j|e]; simpl; [|reflexivity].
  unfold lift. destruct (kwargs_of j); reflexivity.
Qed.

Lemma create_results_await results st :
  create_results results st
  = finish (fun r => parse_opt_with ResultResponse_new
                       (body_result 201 ("/applications/" +:+ _app_id (self st) +:+ "/results") true r))
      (self st)
      (await max_retries (sent st) (request_of (CreateResults results) (self st))).
Proof.
  unfold create_results, bind, get_self. rewrite _post_await. unfold finish, request_of. simpl.
  destruct (await _ _ _) as [[f|r] log']; simpl; [reflexivity|].
  destruct (body_result _ _ _ r) as [j|e]; simpl; [|reflexivity].
  unfold lift. destruct (kwargs_of_opt j); reflexivity.
Qed.

Lemma update_results_await id results st :
  update_results id results st
  = finish (fun r => parse_opt_with ResultResponse_new
                       (body_result 200 ("/application/" +:+ _app_id (self st) +:+ "/results/" +:+ id) true r))
      (self st)
      (await max_retries (sent st) (request_of (UpdateResults id results) (self st))).
Proof.
  unfold update_results, bind, get_self. rewrite _put_await. unfold finish, request_of. simpl.
  destruct (await _ _ _) as [[f|r] log']; simpl; [reflexivity|].
  destruct (body_result _ _ _ r) as [j|e]; simpl; [|reflexivity].
  unfold lift. destruct (kwargs_of_opt j); reflexivity.
Qed.

(** Every call leaves the object as it was and adds between one and
    [S max_retries] attempts of its one request to the log. *)
Lemma run_call_spec call st :
  exists k, (1 <= k <= S max_retries)%nat /\
    run_call call st
    = mkState (self st) (replicate k (request_of call (self st)) ++ sent st).
Proof.
  destruct (await_spec max_retries (sent st) (request_of call (self st)))
    as (k & Hk & Hlog & _).
  exists k. split; [exact Hk|].
  destruct call; unfold run_call;
    [ rewrite get_image_info_await | rewrite create_results_await
    | rewrite get_results_await | rewrite update_results_await ];
    unfold finish; cbn [fst snd]; by rewrite Hlog.
Qed.

Lemma run_call_self call st : self (run_call call st) = self st.
Proof. destruct (run_call_spec call st) as (k & _ & ->). reflexivity. Qed.

Lemma run_calls_self calls st : self (run_calls calls st) = self st.
Proof.
  revert st. induction calls as [|call calls IH]; intros st; simpl; [reflexivity|].
  unfold run_calls in *. simpl. rewrite IH. apply run_call_self.
Qed.

Lemma run_call_issued call st :
  exists k, (1 <= k <= S max_retries)%nat /\
    issued (sent st) (sent (run_call call st)) = replicate k (request_of call (self st)).
Proof.
  destruct (run_call_spec call st) as (k & Hk & ->). exists k. split; [exact Hk|].
  simpl. apply issued_app.
Qed.

(** A property of the requests of single calls holds of everything a
    sequence of calls sends. *)
Lemma run_calls_issued (P : Request -> Prop) calls st :
  (forall call, P (request_of call (self st))) ->
  Forall P (issued (sent st) (sent (run_calls calls st))).
Proof.
  intros HP.
  assert (H : exists l, sent (run_calls calls st) = l ++ sent st /\ Forall P l).
  { revert st HP. induction calls as [|call calls IH]; intros st HP.
    - exists []. split; [reflexivity | constructor].
    - unfold run_calls in *. simpl.
      destruct (run_call_spec call st) as (k & _ & Hst).
      destruct (IH (run_call call st)) as (l & Hl & HPl).
      { intros c. rewrite run_call_self. apply HP. }
      exists (l ++ replicate k (request_of call (self st))). split.
      + rewrite Hl, Hst. simpl. by rewrite app_assoc.
      + apply Forall_app. split; [exact HPl|].
        apply Forall_forall. intros x Hx. apply elem_of_replicate in Hx as [-> _]. apply HP. }
  destruct H as (l & -> & HPl). by rewrite issued_app.
Qed.

(** ** Construction, as one exchange *)

Lemma new_await url token app_id log :
  new url token app_id log
  = let auth : gmap string string := {[ "Authorization" := "Bearer " +:+ token ]} in
    let e := await max_retries log (mkRequest GET (url +:+ "/info") ∅ None auth) in
    (match fst e with
     | Failed f => Raise (TransportError f)
     | Received r =>
         match parse_with ApplicationInfo_new (get_result "/info" r) with
         | Ok v =>
             Ok (mkClient url token app_id
                   (<["X-Sectra-SoftwareVersion" := softwareVersion v]>
                      (<["X-Sectra-ApiVersion" := apiVersion v]> auth))
                   (Some v))
         | Raise e => Raise e
         end
     end, snd e).
Proof.
  unfold new, __init__, _retrieve_ids7_versions, bind, put_self. simpl.
  rewrite _get_await. unfold finish. simpl.
  destruct (await _ _ _) as [[f|r] log']; simpl; [reflexivity|].
  destruct (get_result "/info" r) as [j|e]; simpl; [|reflexivity].
  unfold lift. destruct (kwargs_of j) as [kw|e]; simpl; [|reflexivity].
  destruct (ApplicationInfo_new kw) as [v|e]; reflexivity.
Qed.

Lemma last_outcome_await n log req :
  last_outcome (snd (await n log req)) = Some (fst (await n log req)).
Proof.
  destruct (await_spec n log req) as (k & Hk & -> & -> & _).
  destruct k as [|k]; [lia|]. simpl. by rewrite Nat.sub_0_r.
Qed.

Lemma ApplicationInfo_new_Ok kw v :
  ApplicationInfo_new kw = Ok v ->
  kw !! "apiVersion" = Some (JStr (apiVersion v)) /\
  kw !! "softwareVersion" = Some (JStr (softwareVersion v)).
Proof.
  unfold ApplicationInfo_new.
  destruct (kw !! "apiVersion") as [[]|]; try discriminate.
  destruct (kw !! "softwareVersion") as [[]|]; try discriminate.
  intros [= <-]. auto.
Qed.

Lemma parse_with_Ok {A} (mk : gmap string JSONPayload -> result A) path r a :
  parse_with mk (get_result path r) = Ok a ->
  status_code r = 200 /\ exists kw, json r = Some (JDict kw) /\ mk kw = Ok a.
Proof.
  unfold parse_with, get_result.
  destruct (status_code r =? 200) eqn:E; simpl; [|discriminate].
  apply Z.eqb_eq in E. destruct (json r) as [[]|]; simpl; try discriminate.
  intros H. eauto.
Qed.

Lemma finish_issued {A} (post : Response -> result A) c n log req :
  exists k, (1 <= k <= S n)%nat /\
    issued log (sent (snd (finish post c (await n log req)))) = replicate k req.
Proof.
  destruct (await_spec n log req) as (k & Hk & Hlog & _).
  exists k. split; [exact Hk|]. unfold finish. simpl. rewrite Hlog. apply issued_app.
Qed.

Lemma Forall_replicate_intro {A} (P : A -> Prop) k x : P x -> Forall P (replicate k x).
Proof.
  intros HP. apply Forall_forall. intros y Hy. by apply elem_of_replicate in Hy as [-> _].
Qed.

Lemma replicate_not_nil {A} k (x : A) : (1 <= k)%nat -> replicate k x <> [].
Proof. destruct k; [lia | discriminate]. Qed.

Lemma append_String (a : Ascii.ascii) (b s : string) :
  String a b +:+ s = String a (b +:+ s).
Proof. reflexivity. Qed.

Lemma append_slash_slash (b rest : string) :
  (b +:+ "/") +:+ "/" +:+ rest = b +:+ "//" +:+ rest.
Proof.
  induction b as [|a b IH]; [reflexivity|].
  rewrite !append_String. f_equal. exact IH.
Qed.

Lemma outcome_of_await call st :
  outcome_of call st
  = (match fst (await max_retries (sent st) (request_of call (self st))) with
     | Failed f => Some (TransportError f)
     | Received r => error_after call (self st) r
     end,
     mkState (self st) (snd (await max_retries (sent st) (request_of call (self st))))).
Proof.
  destruct call; unfold outcome_of;
    [ rewrite get_image_info_await | rewrite create_results_await
    | rewrite get_results_await | rewrite update_results_await ];
    unfold finish; cbn [fst snd]; f_equal;
    (destruct (fst (await _ _ _)) as [f|r]; [reflexivity|]);
    unfold error_after, get_result, body_result, expected_status, path_of, shape_of;
    (destruct (negb _); [reflexivity|]);
    (destruct (json r) as [[]|]; try reflexivity); simpl;
    unfold ImageInfo_new, ResultResponse_new;
    destruct (conforms _ _); reflexivity.
Qed.

Lemma run_call_outcome call st : run_call call st = snd (outcome_of call st).
Proof. destruct call; reflexivity. Qed.

Lemma malformed_not_conforms sh kw : malformed sh kw -> conforms sh kw = false.
Proof.
  intros H. unfold conforms. apply not_true_is_false. intros Hall.
  rewrite forallb_forall in Hall.
  destruct H as [f Hin Hreq Hnone | f v Hin Hsome Hty];
    specialize (Hall f Hin); unfold field_ok in Hall.
  - rewrite Hnone, Hreq in Hall. discriminate.
  - rewrite Hsome, Hty in Hall. discriminate.
Qed.

Lemma ApplicationInfo_new_conforms kw :
  conforms ApplicationInfo_shape kw = false -> ApplicationInfo_new kw = Raise ValidationError.
Proof.
  unfold conforms, ApplicationInfo_shape, ApplicationInfo_new, field_ok. simpl.
  destruct (kw !! "apiVersion") as [[]|]; try reflexivity;
    destruct (kw !! "softwareVersion") as [[]|]; try reflexivity.
  simpl. discriminate.
Qed.

Lemma step_issued_not_nil {A} (post : Response -> result A) c n log req :
  issued log (sent (snd (finish post c (await n log req)))) <> [].
Proof.
  destruct (finish_issued post c n log req) as (k & Hk & ->).
  apply replicate_not_nil; lia.
Qed.

Lemma step_issued_Forall {A} (post : Response -> result A) c n log req (P : Request -> Prop) :
  P req -> Forall P (issued log (sent (snd (finish post c (await n log req))))).
Proof.
  intros HP. destruct (finish_issued post c n log req) as (k & Hk & ->).
  by apply Forall_replicate_intro.
Qed.

Lemma request_error_law_intro {A} expected path (res : result A) log o :
  last_outcome log = Some o ->
  match o with
  | Received r =>
      if status_code r =? expected
      then is_request_error res = false
      else res = Raise (IDS7RequestError (status_code r) (text r) path)
  | Failed _ => is_request_error res = false
  end ->
  request_error_law expected path res log.
Proof.
  intros Hlast Ho. unfold request_error_law. rewrite Hlast.
  destruct o as [f|r].
  - split; [split|].
    + rewrite Ho. discriminate.
    + intros (r & [=] & _).
    + intros r [=].
  - destruct (status_code r =? expected) eqn:E.
    + apply Z.eqb_eq in E. split; [split|].
      * rewrite Ho. discriminate.
      * intros (r' & [= <-] & Hne). contradiction.
      * intros r' [= <-] Hne. contradiction.
    + apply Z.eqb_neq in E. split; [split|].
      * intros _. exists r. auto.
      * intros _. by rewrite Ho.
      * intros r' [= <-] _. exact Ho.
Qed.

Lemma finish_request_error_law {A} (post : Response -> result A) expected path c n log req :
  (forall r, if status_code r =? expected
             then is_request_error (post r) = false
             else post r = Raise (IDS7RequestError (status_code r) (text r) path)) ->
  request_error_law expected path
    (fst (finish post c (await n log req)))
    (sent (snd (finish post c (await n log req)))).
Proof.
  intros Hpost.
  apply (request_error_law_intro _ _ _ _ (fst (await n log req))).
  - unfold finish. simpl. apply last_outcome_await.
  - unfold finish. simpl. destruct (fst (await n log req)) as [f|r]; [reflexivity | apply Hpost].
Qed.

Lemma get_result_law {A} (mk : gmap string JSONPayload -> result A) path r :
  (forall kw, is_request_error (mk kw) = false) ->
  if status_code r =? 200
  then is_request_error (parse_with mk (get_result path r)) = false
  else parse_with mk (get_result path r)
       = Raise (IDS7RequestError (status_code r) (text r) path).
Proof.
  intros Hmk. unfold parse_with, get_result.
  destruct (status_code r =? 200); simpl; [|reflexivity].
  destruct (json r) as [[]|]; simpl; auto.
Qed.

Lemma body_result_law {A} (mk : gmap string JSONPayload -> result A) expected path r :
  (forall kw, is_request_error (mk kw) = false) ->
  if status_code r =? expected
  then is_request_error (parse_opt_with mk (body_result expected path true r)) = false
  else parse_opt_with mk (body_result expected path true r)
       = Raise (IDS7RequestError (status_code r) (text r) path).
Proof.
  intros Hmk. unfold parse_opt_with, body_result.
  destruct (status_code r =? expected); simpl; [|reflexivity].
  destruct (json r) as [[]|]; simpl; auto.
Qed.

Lemma ImageInfo_new_no_request_error kw : is_request_error (ImageInfo_new kw) = false.
Proof. unfold ImageInfo_new. by destruct (conforms _ _). Qed.

Lemma ResultResponse_new_no_request_error kw : is_request_error (ResultResponse_new kw) = false.
Proof. unfold ResultResponse_new. by destruct (conforms _ _). Qed.

Lemma ApplicationInfo_new_no_request_error kw : is_request_error (ApplicationInfo_new kw) = false.
Proof.
  unfold ApplicationInfo_new.
  destruct (kw !! "apiVersion") as [[]|]; try reflexivity;
    destruct (kw !! "softwareVersion") as [[]|]; reflexivity.
Qed.

Lemma ApplicationInfo_new_Ok_conforms kw v :
  ApplicationInfo_new kw = Ok v -> conforms ApplicationInfo_shape kw = true.
Proof.
  intros H. apply ApplicationInfo_new_Ok in H as [Ha Hs].
  unfold conforms, ApplicationInfo_shape, field_ok. simpl. by rewrite Ha, Hs.
Qed.

Lemma finish_attempts {A} (post : Response -> result A) c n log req :
  exists k : nat, (1 <= k <= S n)%nat /\
    issued log (sent (snd (finish post c (await n log req)))) = replicate k req /\
    faults (k - 1) log req = true.
Proof.
  destruct (await_spec n log req) as (k & Hk & Hlog & _ & Hf & _).
  exists k. split; [exact Hk|]. split; [|exact Hf].
  unfold finish. simpl. rewrite Hlog. apply issued_app.
Qed.

Lemma finish_second_attempt {A} (post : Response -> result A) c n log req f r :
  (1 <= n)%nat ->
  transport log req = Failed f ->
  transport (req :: log) req = Received r ->
  finish post c (await n log req) = (post r, mkState c (req :: req :: log)).
Proof.
  intros Hn Hf Hr.
  rewrite (await_after_faults n log req 1 (Received r)); auto.
  - simpl. by rewrite Hf.
  - discriminate.
Qed.

(** ** Claims *)

(** C1.  When construction succeeds, the [/info] exchange ended with a
    response whose JSON object gives [apiVersion] and [softwareVersion] as
    strings; the header set of the new client holds exactly these two under
    [X-Sectra-ApiVersion] and [X-Sectra-SoftwareVersion] together with
    [Authorization: Bearer <token>]; and after any sequence of calls of the
    four public operations, the next call sends at least one request, and
    every request it sends carries that header set. *)
Theorem C1_version_headers_on_every_request url token app_id log c log' :
  new url token app_id log = (Ok c, log') ->
  exists r kw av sv,
    last_outcome log' = Some (Received r) /\
    json r = Some (JDict kw) /\
    kw !! "apiVersion" = Some (JStr av) /\
    kw !! "softwareVersion" = Some (JStr sv) /\
    _headers c = <["X-Sectra-SoftwareVersion" := sv]>
                   (<["X-Sectra-ApiVersion" := av]>
                      {[ "Authorization" := "Bearer " +:+ token ]}) /\
    _headers c !! "X-Sectra-ApiVersion" = Some av /\
    _headers c !! "X-Sectra-SoftwareVersion" = Some sv /\
    _headers c !! "Authorization" = Some ("Bearer " +:+ token) /\
    forall calls call,
      let st := run_calls calls (mkState c log') in
      issued (sent st) (sent (run_call call st)) <> [] /\
      Forall (fun req => req_headers req = _headers c)
             (issued (sent st) (sent (run_call call st))).
Proof.
  rewrite new_await. cbv zeta.
  pose proof (last_outcome_await max_retries log
    (mkRequest GET (url +:+ "/info") ∅ None {[ "Authorization" := "Bearer " +:+ token ]})) as Hlast.
  destruct (await _ _ _) as [[f|r] l]; simpl in *; [discriminate|].
  destruct (parse_with _ _) as [v|e] eqn:Hv; [|discriminate].
  intros [= <- <-].
  apply parse_with_Ok in Hv as (_ & kw & Hjson & Hnew).
  apply ApplicationInfo_new_Ok in Hnew as [Ha Hs].
  exists r, kw, (apiVersion v), (softwareVersion v). simpl.
  split_and!; try done.
  intros calls call. set (st := run_calls calls _). split.
  - destruct (run_call_issued call st) as (k & Hk & ->).
    destruct k; [lia | discriminate].
  - destruct (run_call_issued call st) as (k & Hk & ->).
    apply Forall_forall. intros x Hx. apply elem_of_replicate in Hx as [-> _].
    subst st. rewrite run_calls_self. simpl. destruct call; reflexivity.
Qed.

(** C2.  Every request [get_image_info] sends (it sends at least one) is a
    GET to the base URL followed by [/slides/{slide_id}/info]; its query
    parameters hold [scope=extended] when [extended] is true and no [scope]
    key otherwise, [includePHI=true] when [phi] is true and no [includePHI]
    key otherwise, and no other key. *)
Theorem C2_image_info_query slide_id extended phi st :
  let reqs := issued (sent st) (sent (snd (get_image_info slide_id extended phi st))) in
  reqs <> [] /\
  Forall (fun req =>
            req_method req = GET /\
            req_url req = _url (self st) +:+ "/slides/" +:+ slide_id +:+ "/info" /\
            req_params req !! "scope" = (if extended then Some "extended" else None) /\
            req_params req !! "includePHI" = (if phi then Some "true" else None) /\
            dom (req_params req) ⊆ ({[ "scope"; "includePHI" ]} : gset string))
         reqs.
Proof.
  cbv zeta.
  destruct (run_call_issued (GetImageInfo slide_id extended phi) st) as (k & Hbound & Hreqs).
  simpl in Hreqs. rewrite Hreqs. split; [apply replicate_not_nil; lia|].
  clear Hbound Hreqs.
  apply Forall_replicate_intro. unfold image_info_params.
  destruct extended, phi; simpl; split_and!; try done;
    rewrite ?dom_insert_L, dom_empty_L; intros key;
    rewrite !elem_of_union, !elem_of_singleton, ?elem_of_empty; tauto.
Qed.

(** C5.  Every request of [create_results] is a POST to
    [/applications/{app_id}/results]; every request of [get_results] is a
    GET, and every request of [update_results] a PUT, to
    [/application/{app_id}/results/{id}]; each sends at least one request,
    and the two path shapes differ whatever the identifiers are. *)
Theorem C5_results_paths (id : string) (results : Result) st :
  let created := issued (sent st) (sent (snd (create_results results st))) in
  let fetched := issued (sent st) (sent (snd (get_results id st))) in
  let updated := issued (sent st) (sent (snd (update_results id results st))) in
  (created <> [] /\
   Forall (fun req => req_method req = POST /\
             req_url req = _url (self st) +:+ "/applications/" +:+ _app_id (self st) +:+ "/results")
          created) /\
  (fetched <> [] /\
   Forall (fun req => req_method req = GET /\
             req_url req = _url (self st) +:+ "/application/" +:+ _app_id (self st)
                             +:+ "/results/" +:+ id)
          fetched) /\
  (updated <> [] /\
   Forall (fun req => req_method req = PUT /\
             req_url req = _url (self st) +:+ "/application/" +:+ _app_id (self st)
                             +:+ "/results/" +:+ id)
          updated) /\
  "/applications/" +:+ _app_id (self st) +:+ "/results"
  <> "/application/" +:+ _app_id (self st) +:+ "/results/" +:+ id.
Proof.
  cbv zeta.
  destruct (run_call_issued (CreateResults results) st) as (k1 & Hk1 & H1).
  destruct (run_call_issued (GetResults id) st) as (k2 & Hk2 & H2).
  destruct (run_call_issued (UpdateResults id results) st) as (k3 & Hk3 & H3).
  simpl in H1, H2, H3. rewrite H1, H2, H3.
  split_and!; try (apply replicate_not_nil; lia);
    try (apply Forall_replicate_intro; by split).
  rewrite !append_String. discriminate.
Qed.

(** C8.  Whatever a public operation does (return or raise), the object is
    afterwards what it was before: same base URL, token, application id,
    header set and stored version.  The same holds after any sequence of
    calls.  The fields are written by construction, which stores its three
    arguments. *)
Theorem C8_operations_leave_client_unchanged
  (slide_id id : string) (extended phi : bool) (results : Result) (calls : list Call)
  (url token app_id : string) (log : list Request) st :
  self (snd (get_image_info slide_id extended phi st)) = self st /\
  self (snd (create_results results st)) = self st /\
  self (snd (get_results id st)) = self st /\
  self (snd (update_results id results st)) = self st /\
  self (run_calls calls st) = self st /\
  match fst (new url token app_id log) with
  | Ok c => _url c = url /\ _token c = token /\ _app_id c = app_id
  | Raise _ => True
  end.
Proof.
  split_and!.
  - apply (run_call_self (GetImageInfo slide_id extended phi)).
  - apply (run_call_self (CreateResults results)).
  - apply (run_call_self (GetResults id)).
  - apply (run_call_self (UpdateResults id results)).
  - apply run_calls_self.
  - rewrite new_await. cbv zeta. simpl.
    destruct (fst (await _ _ _)); [exact I|].
    destruct (parse_with _ _); [by simpl | exact I].
Qed.

(** C9.  Whatever strings the slide id, the result id and the application
    id are, the empty string included: (1) each of the four operations sends
    at least one request, and every request it sends goes to the base URL
    followed by the path with the identifiers placed between the fixed
    segments as they are; (2) with the empty slide id [get_image_info] sends
    its GET to [/slides//info], and with the empty result id [get_results]
    and [update_results] send theirs to the path that ends in [/results/];
    (3) the identifiers decide nothing else: against a server that answers
    the first attempt with the success status and an object the record
    accepts, the operation sends exactly one request, to that URL, and
    returns the record. *)
Theorem C9_identifiers_verbatim (slide_id id : string) (extended phi : bool)
  (results : Result) st :
  let base := _url (self st) in
  let app := _app_id (self st) in
  let sent_by {A} (op : M A) := issued (sent st) (sent (snd (op st))) in
  ((sent_by (get_image_info slide_id extended phi) <> [] /\
    Forall (fun req => req_url req = base +:+ "/slides/" +:+ slide_id +:+ "/info")
           (sent_by (get_image_info slide_id extended phi))) /\
   (sent_by (get_results id) <> [] /\
    Forall (fun req => req_url req = base +:+ "/application/" +:+ app +:+ "/results/" +:+ id)
           (sent_by (get_results id))) /\
   (sent_by (update_results id results) <> [] /\
    Forall (fun req => req_url req = base +:+ "/application/" +:+ app +:+ "/results/" +:+ id)
           (sent_by (update_results id results))) /\
   (sent_by (create_results results) <> [] /\
    Forall (fun req => req_url req = base +:+ "/applications/" +:+ app +:+ "/results")
           (sent_by (create_results results)))) /\
  ((sent_by (get_image_info "" extended phi) <> [] /\
    Forall (fun req => req_method req = GET /\ req_url req = base +:+ "/slides//info")
           (sent_by (get_image_info "" extended phi))) /\
   (sent_by (get_results "") <> [] /\
    Forall (fun req => req_method req = GET /\
              req_url req = base +:+ "/application/" +:+ app +:+ "/results/")
           (sent_by (get_results ""))) /\
   (sent_by (update_results "" results) <> [] /\
    Forall (fun req => req_method req = PUT /\
              req_url req = base +:+ "/application/" +:+ app +:+ "/results/")
           (sent_by (update_results "" results)))) /\
  ((forall r kw,
      (forall req, transport (sent st) req = Received r) ->
      status_code r = 200 -> json r = Some (JDict kw) ->
      conforms ImageInfo_shape kw = true ->
      fst (get_image_info slide_id extended phi st) = Ok (mkImageInfo kw) /\
      map req_url (sent_by (get_image_info slide_id extended phi))
      = [ base +:+ "/slides/" +:+ slide_id +:+ "/info" ]) /\
   (forall r kw,
      (forall req, transport (sent st) req = Received r) ->
      status_code r = 200 -> json r = Some (JDict kw) ->
      conforms ResultResponse_shape kw = true ->
      fst (get_results id st) = Ok (mkResultResponse kw) /\
      map req_url (sent_by (get_results id))
      = [ base +:+ "/application/" +:+ app +:+ "/results/" +:+ id ]) /\
   (forall r kw,
      (forall req, transport (sent st) req = Received r) ->
      status_code r = 200 -> json r = Some (JDict kw) ->
      conforms ResultResponse_shape kw = true ->
      fst (update_results id results st) = Ok (mkResultResponse kw) /\
      map req_url (sent_by (update_results id results))
      = [ base +:+ "/application/" +:+ app +:+ "/results/" +:+ id ]) /\
   (forall r kw,
      (forall req, transport (sent st) req = Received r) ->
      status_code r = 201 -> json r = Some (JDict kw) ->
      conforms ResultResponse_shape kw = true ->
      fst (create_results results st) = Ok (mkResultResponse kw) /\
      map req_url (sent_by (create_results results))
      = [ base +:+ "/applications/" +:+ app +:+ "/results" ])).
Proof.
  cbv zeta.
  assert (Hsent : forall call,
             issued (sent st) (sent (run_call call st)) <> [] /\
             Forall (fun req => req = request_of call (self st))
                    (issued (sent st) (sent (run_call call st)))).
  { intros call. destruct (run_call_issued call st) as (k & Hk & ->).
    split; [apply replicate_not_nil; lia | by apply Forall_replicate_intro]. }
  assert (Hone : forall (call : Call) r,
             (forall req, transport (sent st) req = Received r) ->
             await max_retries (sent st) (request_of call (self st))
             = (Received r, request_of call (self st) :: sent st)).
  { intros call r Hr.
    rewrite (await_after_faults max_retries (sent st) _ 0 (Received r)); auto;
      [lia | discriminate]. }
  assert (Hcons : forall (req : Request), issued (sent st) (req :: sent st) = [req]).
  { intros req. apply (issued_app [req]). }
  split_and!.
  - apply (Hsent (GetImageInfo slide_id extended phi)).
  - eapply Forall_impl; [apply (Hsent (GetImageInfo slide_id extended phi))|].
    by intros req ->.
  - apply (Hsent (GetResults id)).
  - eapply Forall_impl; [apply (Hsent (GetResults id))|]. by intros req ->.
  - apply (Hsent (UpdateResults id results)).
  - eapply Forall_impl; [apply (Hsent (UpdateResults id results))|]. by intros req ->.
  - apply (Hsent (CreateResults results)).
  - eapply Forall_impl; [apply (Hsent (CreateResults results))|]. by intros req ->.
  - apply (Hsent (GetImageInfo "" extended phi)).
  - eapply Forall_impl; [apply (Hsent (GetImageInfo "" extended phi))|].
    by intros req ->.
  - apply (Hsent (GetResults "")).
  - eapply Forall_impl; [apply (Hsent (GetResults ""))|]. by intros req ->.
  - apply (Hsent (UpdateResults "" results)).
  - eapply Forall_impl; [apply (Hsent (UpdateResults "" results))|]. by intros req ->.
  - intros r kw Hr Hstatus Hjson Hok. rewrite get_image_info_await.
    rewrite (Hone (GetImageInfo slide_id extended phi) r Hr).
    unfold finish, get_result, ImageInfo_new. simpl.
    rewrite Hstatus, Hjson. simpl. rewrite Hok. split; [reflexivity|].
    by rewrite Hcons.
  - intros r kw Hr Hstatus Hjson Hok. rewrite get_results_await.
    rewrite (Hone (GetResults id) r Hr).
    unfold finish, get_result, ResultResponse_new. simpl.
    rewrite Hstatus, Hjson. simpl. rewrite Hok. split; [reflexivity|].
    by rewrite Hcons.
  - intros r kw Hr Hstatus Hjson Hok. rewrite update_results_await.
    rewrite (Hone (UpdateResults id results) r Hr).
    unfold finish, body_result, ResultResponse_new. simpl.
    rewrite Hstatus, Hjson. simpl. rewrite Hok. split; [reflexivity|].
    by rewrite Hcons.
  - intros r kw Hr Hstatus Hjson Hok. rewrite create_results_await.
    rewrite (Hone (CreateResults results) r Hr).
    unfold finish, body_result, ResultResponse_new. simpl.
    rewrite Hstatus, Hjson. simpl. rewrite Hok. split; [reflexivity|].
    by rewrite Hcons.
Qed.

(** C10.  Every request that [_get], [_post] and [_put] send (each sends at
    least one) goes to the base URL immediately followed by the path.  When
    the base URL ends in a slash and the path starts with one, the URL has
    the two slashes next to each other. *)
Theorem C10_url_is_plain_concatenation (path rest : string) (kwargs : gmap string string)
  (payload : JSONPayload) (parse_response : bool) st
  (base token app_id : string) (headers : gmap string string)
  (version : option ApplicationInfo) (log : list Request) :
  let got := issued (sent st) (sent (snd (_get path kwargs st))) in
  let posted := issued (sent st) (sent (snd (_post path payload parse_response st))) in
  let put := issued (sent st) (sent (snd (_put path payload parse_response st))) in
  let st' := mkState (mkClient (base +:+ "/") token app_id headers version) log in
  let got' := issued log (sent (snd (_get ("/" +:+ rest) kwargs st'))) in
  let posted' := issued log (sent (snd (_post ("/" +:+ rest) payload parse_response st'))) in
  let put' := issued log (sent (snd (_put ("/" +:+ rest) payload parse_response st'))) in
  (got <> [] /\ Forall (fun req => req_url req = _url (self st) +:+ path) got) /\
  (posted <> [] /\ Forall (fun req => req_url req = _url (self st) +:+ path) posted) /\
  (put <> [] /\ Forall (fun req => req_url req = _url (self st) +:+ path) put) /\
  (got' <> [] /\ Forall (fun req => req_url req = base +:+ "//" +:+ rest) got') /\
  (posted' <> [] /\ Forall (fun req => req_url req = base +:+ "//" +:+ rest) posted') /\
  (put' <> [] /\ Forall (fun req => req_url req = base +:+ "//" +:+ rest) put').
Proof.
  cbv zeta. rewrite !_get_await, !_post_await, !_put_await.
  split_and!;
    first [ apply step_issued_not_nil
          | apply step_issued_Forall; simpl; auto using append_slash_slash ].
Qed.

(** C3.  For each of the four operations and for construction, look at the
    answer to the last attempt the call made.  The call raises a request
    error exactly when that answer is a response whose status is not the
    expected one (200 for [get_image_info], [get_results], [update_results]
    and the [/info] call of construction, 201 for [create_results]), and the
    error then carries that status, that body text and the request path.  On
    a response with the expected status, and on a connection fault, it
    raises no request error. *)
Theorem C3_request_error_exactly_on_unexpected_status
  (slide_id id : string) (extended phi : bool) (results : Result) st
  (url token app_id : string) (log : list Request) :
  request_error_law 200 ("/slides/" +:+ slide_id +:+ "/info")
    (fst (get_image_info slide_id extended phi st))
    (sent (snd (get_image_info slide_id extended phi st))) /\
  request_error_law 201 ("/applications/" +:+ _app_id (self st) +:+ "/results")
    (fst (create_results results st))
    (sent (snd (create_results results st))) /\
  request_error_law 200 ("/application/" +:+ _app_id (self st) +:+ "/results/" +:+ id)
    (fst (get_results id st))
    (sent (snd (get_results id st))) /\
  request_error_law 200 ("/application/" +:+ _app_id (self st) +:+ "/results/" +:+ id)
    (fst (update_results id results st))
    (sent (snd (update_results id results st))) /\
  request_error_law 200 "/info"
    (fst (new url token app_id log))
    (snd (new url token app_id log)).
Proof.
  rewrite get_image_info_await, create_results_await, get_results_await,
    update_results_await.
  split_and!.
  - apply finish_request_error_law. intros r.
    apply get_result_law, ImageInfo_new_no_request_error.
  - apply finish_request_error_law. intros r.
    apply body_result_law, ResultResponse_new_no_request_error.
  - apply finish_request_error_law. intros r.
    apply get_result_law, ResultResponse_new_no_request_error.
  - apply finish_request_error_law. intros r.
    apply body_result_law, ResultResponse_new_no_request_error.
  - rewrite new_await. cbv zeta.
    apply (request_error_law_intro _ _ _ _
             (fst (await max_retries log
                     (mkRequest GET (url +:+ "/info") ∅ None
                        {[ "Authorization" := "Bearer " +:+ token ]})))).
    + simpl. apply last_outcome_await.
    + simpl. destruct (fst (await _ _ _)) as [f|r]; [reflexivity|].
      pose proof (get_result_law ApplicationInfo_new "/info" r
                    ApplicationInfo_new_no_request_error) as H.
      destruct (status_code r =? 200).
      * destruct (parse_with _ _); [reflexivity | exact H].
      * by rewrite H.
Qed.

(** C4.  Suppose the exchange of an operation ends, after [k] connection
    faults with [k] within the retry bound, with a response of the expected
    status whose JSON object lacks a required field of the target record, or
    has a field of the wrong type.  Then the operation raises the validation
    error, which is not a request error, and the log holds the [k] failed
    attempts and the answered one, and nothing after it.  The same holds of
    construction and [ApplicationInfo]. *)
Theorem C4_validation_error_not_retried :
  (forall call st (k : nat) r kw,
     let req := request_of call (self st) in
     (k <= max_retries)%nat ->
     faults k (sent st) req = true ->
     transport (replicate k req ++ sent st) req = Received r ->
     status_code r = expected_status call ->
     json r = Some (JDict kw) ->
     malformed (shape_of call) kw ->
     outcome_of call st
     = (Some ValidationError, mkState (self st) (replicate (S k) req ++ sent st)) /\
     forall status body path, ValidationError <> IDS7RequestError status body path) /\
  (forall url token app_id log (k : nat) r kw,
     let req := mkRequest GET (url +:+ "/info") ∅ None
                  {[ "Authorization" := "Bearer " +:+ token ]} in
     (k <= max_retries)%nat ->
     faults k log req = true ->
     transport (replicate k req ++ log) req = Received r ->
     status_code r = 200 ->
     json r = Some (JDict kw) ->
     malformed ApplicationInfo_shape kw ->
     new url token app_id log = (Raise ValidationError, replicate (S k) req ++ log)).
Proof.
  split.
  - intros call st k r kw req Hk Hf Hr Hstatus Hjson Hbad. split; [|discriminate].
    rewrite outcome_of_await. fold req.
    rewrite (await_after_faults max_retries (sent st) req k (Received r)); auto; [|discriminate].
    simpl. unfold error_after. rewrite Hstatus, Z.eqb_refl, Hjson. simpl.
    by rewrite (malformed_not_conforms _ _ Hbad).
  - intros url token app_id log k r kw req Hk Hf Hr Hstatus Hjson Hbad.
    rewrite new_await. cbv zeta. fold req.
    rewrite (await_after_faults max_retries log req k (Received r)); auto; [|discriminate].
    simpl. unfold get_result. rewrite Hstatus, Hjson. simpl.
    by rewrite (ApplicationInfo_new_conforms _ (malformed_not_conforms _ _ Hbad)).
Qed.

(** C6.  For every operation: (1) it makes between one and [S max_retries]
    attempts of its request, and every attempt but the last ended in a
    connection fault; (2) once an attempt is answered with a response, of
    whatever status, no further attempt is made; (3) with at least one retry
    allowed, a connection fault on the first attempt followed by a response
    with the expected status and a valid body on the second makes the
    operation return, with no exception.  (4) The same bound holds of
    [_get], [_post] and [_put] themselves, and (5) each of them returns the
    decoded body when a fault on the first attempt is followed by a response
    with its success status on the second. *)
Theorem C6_retry_only_on_connection_faults call st
  (path : string) (kwargs : gmap string string) (payload : JSONPayload)
  (parse_response : bool) :
  let req := request_of call (self st) in
  let g := mkRequest GET (_url (self st) +:+ path) kwargs None (_headers (self st)) in
  let p := mkRequest POST (_url (self st) +:+ path) ∅ (Some payload) (_headers (self st)) in
  let u := mkRequest PUT (_url (self st) +:+ path) ∅ (Some payload) (_headers (self st)) in
  (exists k : nat, (1 <= k <= S max_retries)%nat /\
     issued (sent st) (sent (run_call call st)) = replicate k req /\
     faults (k - 1) (sent st) req = true) /\
  (forall (k : nat) r,
     (k <= max_retries)%nat ->
     faults k (sent st) req = true ->
     transport (replicate k req ++ sent st) req = Received r ->
     sent (run_call call st) = replicate (S k) req ++ sent st) /\
  (forall f r kw,
     (1 <= max_retries)%nat ->
     transport (sent st) req = Failed f ->
     transport (req :: sent st) req = Received r ->
     status_code r = expected_status call ->
     json r = Some (JDict kw) ->
     conforms (shape_of call) kw = true ->
     outcome_of call st = (None, mkState (self st) (req :: req :: sent st))) /\
  ((exists k : nat, (1 <= k <= S max_retries)%nat /\
      issued (sent st) (sent (snd (_get path kwargs st))) = replicate k g /\
      faults (k - 1) (sent st) g = true) /\
   (exists k : nat, (1 <= k <= S max_retries)%nat /\
      issued (sent st) (sent (snd (_post path payload parse_response st))) = replicate k p /\
      faults (k - 1) (sent st) p = true) /\
   (exists k : nat, (1 <= k <= S max_retries)%nat /\
      issued (sent st) (sent (snd (_put path payload parse_response st))) = replicate k u /\
      faults (k - 1) (sent st) u = true)) /\
  ((forall f r j,
      (1 <= max_retries)%nat ->
      transport (sent st) g = Failed f -> transport (g :: sent st) g = Received r ->
      status_code r = 200 -> json r = Some j ->
      _get path kwargs st = (Ok j, mkState (self st) (g :: g :: sent st))) /\
   (forall f r j,
      (1 <= max_retries)%nat ->
      transport (sent st) p = Failed f -> transport (p :: sent st) p = Received r ->
      status_code r = 201 -> json r = Some j ->
      _post path payload parse_response st
      = (Ok (if parse_response then Some j else None),
         mkState (self st) (p :: p :: sent st))) /\
   (forall f r j,
      (1 <= max_retries)%nat ->
      transport (sent st) u = Failed f -> transport (u :: sent st) u = Received r ->
      status_code r = 200 -> json r = Some j ->
      _put path payload parse_response st
      = (Ok (if parse_response then Some j else None),
         mkState (self st) (u :: u :: sent st)))).
Proof.
  intros req g p u. split_and!.
  - destruct (await_spec max_retries (sent st) req) as (k & Hk & Hlog & _ & Hf & _).
    exists k. split; [exact Hk|]. split; [|exact Hf].
    rewrite run_call_outcome, outcome_of_await. fold req. simpl.
    rewrite Hlog. apply issued_app.
  - intros k r Hk Hf Hr.
    rewrite run_call_outcome, outcome_of_await. fold req. simpl.
    by rewrite (await_after_faults max_retries (sent st) req k (Received r)).
  - intros f r kw Hn Hfail Hr Hstatus Hjson Hok.
    rewrite outcome_of_await. fold req.
    rewrite (await_after_faults max_retries (sent st) req 1 (Received r)); auto.
    + simpl. unfold error_after. by rewrite Hstatus, Z.eqb_refl, Hjson, Hok.
    + simpl. by rewrite Hfail.
    + discriminate.
  - rewrite _get_await. apply finish_attempts.
  - rewrite _post_await. apply finish_attempts.
  - rewrite _put_await. apply finish_attempts.
  - intros f r j Hn Hf Hr Hstatus Hjson. rewrite _get_await. fold g.
    rewrite (finish_second_attempt _ _ _ _ _ f r); auto.
    unfold get_result. by rewrite Hstatus, Hjson.
  - intros f r j Hn Hf Hr Hstatus Hjson. rewrite _post_await. fold p.
    rewrite (finish_second_attempt _ _ _ _ _ f r); auto.
    unfold body_result. rewrite Hstatus, Hjson. by destruct parse_response.
  - intros f r j Hn Hf Hr Hstatus Hjson. rewrite _put_await. fold u.
    rewrite (finish_second_attempt _ _ _ _ _ f r); auto.
    unfold body_result. rewrite Hstatus, Hjson. by destruct parse_response.
Qed.

(** C7.  Construction sends its GET to [/info] with the bearer header.
    (1) If every attempt allowed ends in a connection fault, construction
    raises the transport error of the last one.  (2) If the exchange ends
    with a response whose status is not 200, construction raises the request
    error with that status, body text and the path [/info].  (3) If it ends
    with a 200 response whose object lacks a field of [ApplicationInfo] or
    has it with the wrong type, construction raises the validation error.
    (4) Whatever [_get] raises for [/info], construction raises the same.
    (5) A client comes out only when the exchange ended with a 200 response
    carrying a well-formed object. *)
Theorem C7_construction_fails_with_info_request url token app_id log :
  let auth : gmap string string := {[ "Authorization" := "Bearer " +:+ token ]} in
  let req := mkRequest GET (url +:+ "/info") ∅ None auth in
  (forall f,
     faults max_retries log req = true ->
     transport (replicate max_retries req ++ log) req = Failed f ->
     new url token app_id log
     = (Raise (TransportError f), replicate (S max_retries) req ++ log)) /\
  (forall (k : nat) r,
     (k <= max_retries)%nat ->
     faults k log req = true ->
     transport (replicate k req ++ log) req = Received r ->
     status_code r <> 200 ->
     new url token app_id log
     = (Raise (IDS7RequestError (status_code r) (text r) "/info"),
        replicate (S k) req ++ log)) /\
  (forall (k : nat) r kw,
     (k <= max_retries)%nat ->
     faults k log req = true ->
     transport (replicate k req ++ log) req = Received r ->
     status_code r = 200 ->
     json r = Some (JDict kw) ->
     malformed ApplicationInfo_shape kw ->
     new url token app_id log = (Raise ValidationError, replicate (S k) req ++ log)) /\
  (forall e,
     fst (_get "/info" ∅ (mkState (mkClient url token app_id auth None) log)) = Raise e ->
     fst (new url token app_id log) = Raise e) /\
  (forall c log',
     new url token app_id log = (Ok c, log') ->
     exists r kw,
       last_outcome log' = Some (Received r) /\ status_code r = 200 /\
       json r = Some (JDict kw) /\ conforms ApplicationInfo_shape kw = true).
Proof.
  intros auth req. split_and!.
  - intros f Hf Hlast. rewrite new_await. cbv zeta. fold auth req.
    by rewrite (await_after_faults max_retries log req max_retries (Failed f)).
  - intros k r Hk Hf Hr Hstatus. rewrite new_await. cbv zeta. fold auth req.
    rewrite (await_after_faults max_retries log req k (Received r)); auto; [|discriminate].
    simpl. unfold get_result. apply Z.eqb_neq in Hstatus. by rewrite Hstatus.
  - intros k r kw Hk Hf Hr Hstatus Hjson Hbad. rewrite new_await. cbv zeta. fold auth req.
    rewrite (await_after_faults max_retries log req k (Received r)); auto; [|discriminate].
    simpl. unfold get_result. rewrite Hstatus, Hjson. simpl.
    by rewrite (ApplicationInfo_new_conforms _ (malformed_not_conforms _ _ Hbad)).
  - intros e. rewrite new_await, _get_await. cbv zeta. unfold finish. simpl. fold auth req.
    destruct (fst (await _ _ _)) as [f|r]; simpl.
    + by intros [= <-].
    + by intros ->.
  - intros c log'. rewrite new_await. cbv zeta. fold auth req.
    pose proof (last_outcome_await max_retries log req) as Hlast.
    destruct (await max_retries log req) as [[f|r] l]; simpl in *; [discriminate|].
    destruct (parse_with _ _) as [v|e] eqn:Hv; [|discriminate].
    intros [= <- <-].
    apply parse_with_Ok in Hv as (Hstatus & kw & Hjson & Hnew).
    exists r, kw. split_and!; auto. by apply ApplicationInfo_new_Ok_conforms in Hnew.
Qed.

(** ** Further properties of the class *)

Lemma await_first_response n log req r :
  transport log req = Received r -> await n log req = (Received r, req :: log).
Proof.
  intros Hr.
  rewrite (await_after_faults n log req 0 (Received r)); auto; [lia | discriminate].
Qed.

(** X1.  Construction sends at least one request, and every request it
    sends is the GET to the base URL followed by [/info], with no query
    parameter, no body, and the bearer header alone: the two version
    headers are not yet in the header set when [/info] is asked. *)
Theorem X1_info_request_carries_only_bearer url token app_id log :
  let reqs := issued log (snd (new url token app_id log)) in
  reqs <> [] /\
  Forall (fun req =>
            req = mkRequest GET (url +:+ "/info") ∅ None
                    {[ "Authorization" := "Bearer " +:+ token ]})
         reqs /\
  Forall (fun req =>
            req_headers req !! "X-Sectra-ApiVersion" = None /\
            req_headers req !! "X-Sectra-SoftwareVersion" = None)
         reqs.
Proof.
  cbv zeta. rewrite new_await. cbv zeta. simpl.
  destruct (await_spec max_retries log
              (mkRequest GET (url +:+ "/info") ∅ None
                 {[ "Authorization" := "Bearer " +:+ token ]})) as (k & Hk & Hlog & _).
  rewrite Hlog, issued_app. split_and!.
  - apply replicate_not_nil; lia.
  - by apply Forall_replicate_intro.
  - apply Forall_replicate_intro. simpl. split; by rewrite lookup_singleton_ne.
Qed.

(** X2.  When construction succeeds, the stored [ids7_version] is set, its
    two fields are the strings the [/info] object gives, they are the values
    of the two version headers, and the header set has these three keys and
    no other. *)
Theorem X2_stored_version_matches_headers url token app_id log c log' :
  new url token app_id log = (Ok c, log') ->
  exists v r kw,
    ids7_version c = Some v /\
    last_outcome log' = Some (Received r) /\
    json r = Some (JDict kw) /\
    kw !! "apiVersion" = Some (JStr (apiVersion v)) /\
    kw !! "softwareVersion" = Some (JStr (softwareVersion v)) /\
    _headers c !! "X-Sectra-ApiVersion" = Some (apiVersion v) /\
    _headers c !! "X-Sectra-SoftwareVersion" = Some (softwareVersion v) /\
    dom (_headers c)
    = ({[ "Authorization"; "X-Sectra-ApiVersion"; "X-Sectra-SoftwareVersion" ]} : gset string).
Proof.
  rewrite new_await. cbv zeta.
  pose proof (last_outcome_await max_retries log
    (mkRequest GET (url +:+ "/info") ∅ None {[ "Authorization" := "Bearer " +:+ token ]})) as Hlast.
  destruct (await _ _ _) as [[f|r] l]; simpl in *; [discriminate|].
  destruct (parse_with _ _) as [v|e] eqn:Hv; [|discriminate].
  intros [= <- <-].
  apply parse_with_Ok in Hv as (_ & kw & Hjson & Hnew).
  apply ApplicationInfo_new_Ok in Hnew as [Ha Hs].
  exists v, r, kw. simpl. split_and!; try done.
Qed.

(** X3.  Whatever the outcome, every attempt of [_get] is the same GET with
    the given keyword arguments as query parameters, no body and the
    client's header set; every attempt of [_post] and of [_put] is the same
    POST or PUT with no query parameter, the payload as JSON body and the
    client's header set; and none of the three changes the object. *)
Theorem X3_step_requests (path : string) (kwargs : gmap string string)
  (payload : JSONPayload) (parse_response : bool) st :
  (Forall (fun req =>
             req = mkRequest GET (_url (self st) +:+ path) kwargs None (_headers (self st)))
          (issued (sent st) (sent (snd (_get path kwargs st)))) /\
   self (snd (_get path kwargs st)) = self st) /\
  (Forall (fun req =>
             req = mkRequest POST (_url (self st) +:+ path) ∅ (Some payload)
                     (_headers (self st)))
          (issued (sent st) (sent (snd (_post path payload parse_response st)))) /\
   self (snd (_post path payload parse_response st)) = self st) /\
  (Forall (fun req =>
             req = mkRequest PUT (_url (self st) +:+ path) ∅ (Some payload)
                     (_headers (self st)))
          (issued (sent st) (sent (snd (_put path payload parse_response st)))) /\
   self (snd (_put path payload parse_response st)) = self st).
Proof.
  rewrite _get_await, _post_await, _put_await.
  split_and!; first [ reflexivity | by apply step_issued_Forall ].
Qed.

(** X4.  Every request of [create_results] and of [update_results] carries
    the dump of the given result as its JSON body and no query parameter;
    every request of [get_results] carries no body and no query parameter;
    every request of [get_image_info] carries no body. *)
Theorem X4_operation_bodies (slide_id id : string) (extended phi : bool)
  (results : Result) st :
  Forall (fun req => req_json req = Some (model_dump results) /\ req_params req = ∅)
         (issued (sent st) (sent (snd (create_results results st)))) /\
  Forall (fun req => req_json req = Some (model_dump results) /\ req_params req = ∅)
         (issued (sent st) (sent (snd (update_results id results st)))) /\
  Forall (fun req => req_json req = None /\ req_params req = ∅)
         (issued (sent st) (sent (snd (get_results id st)))) /\
  Forall (fun req => req_json req = None)
         (issued (sent st) (sent (snd (get_image_info slide_id extended phi st)))).
Proof.
  destruct (run_call_issued (CreateResults results) st) as (k1 & _ & H1).
  destruct (run_call_issued (UpdateResults id results) st) as (k2 & _ & H2).
  destruct (run_call_issued (GetResults id) st) as (k3 & _ & H3).
  destruct (run_call_issued (GetImageInfo slide_id extended phi) st) as (k4 & _ & H4).
  simpl in H1, H2, H3, H4. rewrite H1, H2, H3, H4.
  split_and!; by apply Forall_replicate_intro.
Qed.

(** X5.  When the first attempt is answered with the success status, [_post]
    (201) and [_put] (200) called with [parse_response] false return [None]
    after that one attempt, whether the body decodes or not.  The bodies of
    [_get], [_post] and [_put] that do decode raise the decoding error when
    the body of such a response is no JSON. *)
Theorem X5_parse_response (path : string) (kwargs : gmap string string)
  (payload : JSONPayload) st :
  let g := mkRequest GET (_url (self st) +:+ path) kwargs None (_headers (self st)) in
  let p := mkRequest POST (_url (self st) +:+ path) ∅ (Some payload) (_headers (self st)) in
  let u := mkRequest PUT (_url (self st) +:+ path) ∅ (Some payload) (_headers (self st)) in
  (forall r,
     transport (sent st) p = Received r -> status_code r = 201 ->
     _post path payload false st = (Ok None, mkState (self st) (p :: sent st))) /\
  (forall r,
     transport (sent st) u = Received r -> status_code r = 200 ->
     _put path payload false st = (Ok None, mkState (self st) (u :: sent st))) /\
  (forall r,
     transport (sent st) g = Received r -> status_code r = 200 -> json r = None ->
     _get_call path kwargs st = (Raise JSONDecodeError, mkState (self st) (g :: sent st))) /\
  (forall r,
     transport (sent st) p = Received r -> status_code r = 201 -> json r = None ->
     _post_call path payload true st
     = (Raise JSONDecodeError, mkState (self st) (p :: sent st))) /\
  (forall r,
     transport (sent st) u = Received r -> status_code r = 200 -> json r = None ->
     _put_call path payload true st
     = (Raise JSONDecodeError, mkState (self st) (u :: sent st))).
Proof.
  intros g p u. split_and!.
  - intros r Hr Hstatus. rewrite _post_await. fold p.
    rewrite (await_first_response _ _ _ r Hr). unfold finish, body_result. simpl.
    by rewrite Hstatus.
  - intros r Hr Hstatus. rewrite _put_await. fold u.
    rewrite (await_first_response _ _ _ r Hr). unfold finish, body_result. simpl.
    by rewrite Hstatus.
  - intros r Hr Hstatus Hjson. rewrite _get_call_exchange. unfold exchange. simpl.
    fold g. rewrite Hr. unfold get_result. by rewrite Hstatus, Hjson.
  - intros r Hr Hstatus Hjson. rewrite _post_call_exchange. unfold exchange. simpl.
    fold p. rewrite Hr. unfold body_result. by rewrite Hstatus, Hjson.
  - intros r Hr Hstatus Hjson. rewrite _put_call_exchange. unfold exchange. simpl.
    fold u. rewrite Hr. unfold body_result. by rewrite Hstatus, Hjson.
Qed.

(** X6.  When the exchange of an operation ends, after [k] connection
    faults with [k] within the retry bound, with a response of the expected
    status whose body decodes to something that is no mapping (a list, a
    string, a number, a boolean, null), the operation raises the type error
    of the unpacking, not the validation error, and makes no further
    attempt.  The same holds of construction. *)
Theorem X6_non_mapping_body_is_type_error :
  (forall call st (k : nat) r j,
     let req := request_of call (self st) in
     (k <= max_retries)%nat ->
     faults k (sent st) req = true ->
     transport (replicate k req ++ sent st) req = Received r ->
     status_code r = expected_status call ->
     json r = Some j ->
     is_mapping j = false ->
     outcome_of call st
     = (Some TypeError, mkState (self st) (replicate (S k) req ++ sent st))) /\
  (forall url token app_id log (k : nat) r j,
     let req := mkRequest GET (url +:+ "/info") ∅ None
                  {[ "Authorization" := "Bearer " +:+ token ]} in
     (k <= max_retries)%nat ->
     faults k log req = true ->
     transport (replicate k req ++ log) req = Received r ->
     status_code r = 200 ->
     json r = Some j ->
     is_mapping j = false ->
     new url token app_id log = (Raise TypeError, replicate (S k) req ++ log)).
Proof.
  split.
  - intros call st k r j req Hk Hf Hr Hstatus Hjson Hj.
    rewrite outcome_of_await. fold req.
    rewrite (await_after_faults max_retries (sent st) req k (Received r)); auto; [|discriminate].
    simpl. unfold error_after. rewrite Hstatus, Z.eqb_refl, Hjson. simpl.
    destruct j; try reflexivity. discriminate.
  - intros url token app_id log k r j req Hk Hf Hr Hstatus Hjson Hj.
    rewrite new_await. cbv zeta. fold req.
    rewrite (await_after_faults max_retries log req k (Received r)); auto; [|discriminate].
    simpl. unfold get_result. rewrite Hstatus, Hjson. simpl.
    destruct j; try reflexivity. discriminate.
Qed.

(** X7.  An operation returns, with no exception, exactly when the answer to
    its last attempt is a response with the expected status whose body
    decodes to a mapping that the record shape accepts. *)
Theorem X7_returns_exactly_on_valid_response call st :
  fst (outcome_of call st) = None <->
  exists r kw,
    last_outcome (sent (snd (outcome_of call st))) = Some (Received r) /\
    status_code r = expected_status call /\
    json r = Some (JDict kw) /\
    conforms (shape_of call) kw = true.
Proof.
  rewrite outcome_of_await. simpl. rewrite last_outcome_await.
  destruct (fst (await _ _ _)) as [f|r].
  - split; [discriminate|]. intros (r & kw & [=] & _).
  - unfold error_after. split.
    + intros H.
      destruct (status_code r =? expected_status call) eqn:E; simpl in H; [|discriminate].
      apply Z.eqb_eq in E.
      destruct (json r) as [[|b|z|q|s0|l|d]|] eqn:Hjson; try discriminate.
      destruct (conforms (shape_of call) d) eqn:Hc; [|discriminate].
      exists r, d. split_and!; auto.
    + intros (r' & kw & [= <-] & Hs & Hj & Hc).
      by rewrite Hs, Z.eqb_refl, Hj, Hc.
Qed.

(** X8.  The operations read the base URL, the application id and the
    header set of the object, and nothing else of it: two objects that agree
    on these three, whatever their stored token and stored version, give the
    same results and send the same requests. *)
Theorem X8_token_not_read_after_construction
  (slide_id id : string) (extended phi : bool) (results : Result)
  (url app_id token token' : string) (headers : gmap string string)
  (version version' : option ApplicationInfo) (log : list Request) :
  let st := mkState (mkClient url token app_id headers version) log in
  let st' := mkState (mkClient url token' app_id headers version') log in
  (fst (get_image_info slide_id extended phi st) = fst (get_image_info slide_id extended phi st') /\
   sent (snd (get_image_info slide_id extended phi st))
   = sent (snd (get_image_info slide_id extended phi st'))) /\
  (fst (create_results results st) = fst (create_results results st') /\
   sent (snd (create_results results st)) = sent (snd (create_results results st'))) /\
  (fst (get_results id st) = fst (get_results id st') /\
   sent (snd (get_results id st)) = sent (snd (get_results id st'))) /\
  (fst (update_results id results st) = fst (update_results id results st') /\
   sent (snd (update_results id results st)) = sent (snd (update_results id results st'))).
Proof.
  cbv zeta.
  rewrite !get_image_info_await, !create_results_await, !get_results_await,
    !update_results_await.
  split_and!; reflexivity.
Qed.

End Client.

(** ** The claims at concrete servers *)

(** C1 at a server that answers [/info] with versions 1.0 and 7.2: the
    client is [sample_client], and a later [get_results] carries its three
    headers. *)
Lemma C1_witness :
  new (always info_ok) 3 "https://ids7" "secret" "app1" []
  = (Ok sample_client, [info_request]) /\
  Forall (fun req => req_headers req = _headers sample_client)
    (issued [info_request]
       (sent (run_call (always info_ok) unit (fun _ => score) id_shape id_shape 3
                (GetResults unit "r1") (mkState sample_client [info_request])))).
Proof.
  assert (H : new (always info_ok) 3 "https://ids7" "secret" "app1" []
              = (Ok sample_client, [info_request])) by (vm_compute; reflexivity).
  split; [exact H|].
  destruct (C1_version_headers_on_every_request (always info_ok) unit (fun _ => score)
              id_shape id_shape 3 _ _ _ _ _ _ H)
    as (r & kw & av & sv & _ & _ & _ & _ & _ & _ & _ & _ & Hcalls).
  exact (proj2 (Hcalls [] (GetResults unit "r1"))).
Defined.

(** C3 at a server that answers 404: [get_results] raises the request error
    with 404, the body text and its path; and at a server that answers 201,
    [create_results] raises no request error. *)
Lemma C3_witness :
  fst (get_results (always not_found) id_shape 3 "r1" (mkState sample_client []))
  = Raise (IDS7RequestError 404 "Not Found" "/application/app1/results/r1") /\
  is_request_error
    (fst (create_results (always created) unit (fun _ => score) id_shape 3 tt
            (mkState sample_client []))) = false.
Proof.
  split.
  - destruct (C3_request_error_exactly_on_unexpected_status (always not_found) unit
                (fun _ => score) id_shape id_shape 3 "s1" "r1" false false tt
                (mkState sample_client []) "https://ids7" "secret" "app1" [])
      as (_ & _ & [_ Hget] & _).
    apply (Hget not_found); [ vm_compute; reflexivity | discriminate ].
  - destruct (C3_request_error_exactly_on_unexpected_status (always created) unit
                (fun _ => score) id_shape id_shape 3 "s1" "r1" false false tt
                (mkState sample_client []) "https://ids7" "secret" "app1" [])
      as (_ & [[Hcreate _] _] & _).
    apply not_true_is_false. intros Herr.
    destruct (Hcreate Herr) as (r & Hlast & Hstatus).
    apply Hstatus. vm_compute in Hlast. by injection Hlast as <-.
Defined.

(** C9 with empty identifiers, at servers that answer the first attempt:
    [get_image_info] with the empty slide id sends one GET to
    [/slides//info] and returns the record; [get_results] with the empty
    result id does the same at the path ending in [/results/]; and
    [create_results] on a client whose application id is empty posts to
    [/applications//results] and returns. *)
Lemma C9_witness :
  (fst (get_image_info (always found) id_shape 3 "" false false (mkState sample_client []))
   = Ok (mkImageInfo {[ "id" := JStr "abc123" ]}) /\
   map req_url
     (issued [] (sent (snd (get_image_info (always found) id_shape 3 "" false false
                             (mkState sample_client [])))))
   = [ "https://ids7/slides//info" ]) /\
  (fst (get_results (always found) id_shape 3 "" (mkState sample_client []))
   = Ok (mkResultResponse {[ "id" := JStr "abc123" ]}) /\
   map req_url
     (issued [] (sent (snd (get_results (always found) id_shape 3 ""
                             (mkState sample_client [])))))
   = [ "https://ids7/application/app1/results/" ]) /\
  (fst (create_results (always created) unit (fun _ => score) id_shape 3 tt
          (mkState (mkClient "https://ids7" "secret" "" (_headers sample_client) None) []))
   = Ok (mkResultResponse {[ "id" := JStr "abc123" ]}) /\
   map req_url
     (issued [] (sent (snd (create_results (always created) unit (fun _ => score) id_shape 3 tt
                             (mkState (mkClient "https://ids7" "secret" ""
                                         (_headers sample_client) None) [])))))
   = [ "https://ids7/applications//results" ]).
Proof.
  split_and!.
  - apply (proj1 (proj2 (proj2 (C9_identifiers_verbatim (always found) unit (fun _ => score)
                                  id_shape id_shape 3 "" "" false false tt
                                  (mkState sample_client []))))
             found {[ "id" := JStr "abc123" ]});
      [ intros req; reflexivity | reflexivity | reflexivity | vm_compute; reflexivity ].
  - apply (proj1 (proj2 (proj2 (C9_identifiers_verbatim (always found) unit (fun _ => score)
                                  id_shape id_shape 3 "" "" false false tt
                                  (mkState sample_client []))))
             found {[ "id" := JStr "abc123" ]});
      [ intros req; reflexivity | reflexivity | reflexivity | vm_compute; reflexivity ].
  - apply (proj1 (proj2 (proj2 (proj2 (C9_identifiers_verbatim (always found) unit
                                         (fun _ => score) id_shape id_shape 3 "" ""
                                         false false tt (mkState sample_client [])))))
             found {[ "id" := JStr "abc123" ]});
      [ intros req; reflexivity | reflexivity | reflexivity | vm_compute; reflexivity ].
  - apply (proj1 (proj2 (proj2 (proj2 (C9_identifiers_verbatim (always found) unit
                                         (fun _ => score) id_shape id_shape 3 "" ""
                                         false false tt (mkState sample_client [])))))
             found {[ "id" := JStr "abc123" ]});
      [ intros req; reflexivity | reflexivity | reflexivity | vm_compute; reflexivity ].
  - apply (proj2 (proj2 (proj2 (proj2 (proj2 (C9_identifiers_verbatim (always created) unit
                                         (fun _ => score) id_shape id_shape 3 "" ""
                                         false false tt
                                         (mkState (mkClient "https://ids7" "secret" ""
                                                     (_headers sample_client) None) []))))))
             created {[ "id" := JStr "abc123" ]});
      [ intros req; reflexivity | reflexivity | reflexivity | vm_compute; reflexivity ].
  - apply (proj2 (proj2 (proj2 (proj2 (proj2 (C9_identifiers_verbatim (always created) unit
                                         (fun _ => score) id_shape id_shape 3 "" ""
                                         false false tt
                                         (mkState (mkClient "https://ids7" "secret" ""
                                                     (_headers sample_client) None) []))))))
             created {[ "id" := JStr "abc123" ]});
      [ intros req; reflexivity | reflexivity | reflexivity | vm_compute; reflexivity ].
Defined.

(** C4 at a network whose first attempt times out and whose server then
    answers 200 with the empty object: [get_results] and construction raise
    the validation error after exactly two attempts. *)
Lemma C4_witness :
  outcome_of (flaky empty_object) unit (fun _ => score) id_shape id_shape 3
    (GetResults unit "r1") (mkState sample_client [])
  = (Some ValidationError,
     mkState sample_client
       (replicate 2 (request_of unit (fun _ => score) (GetResults unit "r1") sample_client)
          ++ [])) /\
  new (flaky empty_object) 3 "https://ids7" "secret" "app1" []
  = (Raise ValidationError, replicate 2 info_request ++ []).
Proof.
  destruct (C4_validation_error_not_retried (flaky empty_object) unit (fun _ => score)
              id_shape id_shape 3) as [Hcall Hnew].
  split.
  - apply (Hcall (GetResults unit "r1") (mkState sample_client []) 1%nat empty_object ∅);
      [ lia | reflexivity | reflexivity | reflexivity | reflexivity | ].
    apply (missing_field _ _ (mkField "id" TStr true));
      [ left; reflexivity | reflexivity | reflexivity ].
  - apply (Hnew "https://ids7" "secret" "app1" [] 1%nat empty_object ∅);
      [ lia | reflexivity | reflexivity | reflexivity | reflexivity | ].
    apply (missing_field _ _ (mkField "apiVersion" TStr true));
      [ left; reflexivity | reflexivity | reflexivity ].
Defined.

(** C6 with three retries allowed: a timeout followed by a 200 with a valid
    body makes [get_results] return after two attempts, and a 404 on the
    first attempt is not followed by a second. *)
Lemma C6_witness :
  outcome_of (flaky found) unit (fun _ => score) id_shape id_shape 3
    (GetResults unit "r1") (mkState sample_client [])
  = (None,
     mkState sample_client
       [ request_of unit (fun _ => score) (GetResults unit "r1") sample_client;
         request_of unit (fun _ => score) (GetResults unit "r1") sample_client ]) /\
  sent (run_call (always not_found) unit (fun _ => score) id_shape id_shape 3
          (GetResults unit "r1") (mkState sample_client []))
  = replicate 1 (request_of unit (fun _ => score) (GetResults unit "r1") sample_client) ++ [] /\
  fst (_post (flaky created) 3 "/applications/app1/results" score true
         (mkState sample_client []))
  = Ok (Some (JDict {[ "id" := JStr "abc123" ]})).
Proof.
  split_and!.
  - apply (proj1 (proj2 (proj2 (C6_retry_only_on_connection_faults (flaky found) unit
                           (fun _ => score) id_shape id_shape 3
                           (GetResults unit "r1") (mkState sample_client [])
                           "/info" ∅ score true)))
             Timeout found {[ "id" := JStr "abc123" ]});
      [ lia | reflexivity | reflexivity | reflexivity | reflexivity | vm_compute; reflexivity ].
  - apply (proj1 (proj2 (C6_retry_only_on_connection_faults (always not_found) unit
                           (fun _ => score) id_shape id_shape 3
                           (GetResults unit "r1") (mkState sample_client [])
                           "/info" ∅ score true))
             0%nat not_found);
      [ lia | reflexivity | reflexivity ].
  - rewrite (proj1 (proj2 (proj2 (proj2 (proj2 (proj2
               (C6_retry_only_on_connection_faults (flaky created) unit
                  (fun _ => score) id_shape id_shape 3
                  (GetResults unit "r1") (mkState sample_client [])
                  "/applications/app1/results" ∅ score true))))))
             Timeout created (JDict {[ "id" := JStr "abc123" ]}));
      [ reflexivity | lia | reflexivity | reflexivity | reflexivity | reflexivity ].
Defined.

(** C7 with three retries allowed: against a network that is down
    construction raises the transport error after four attempts; against a
    server answering 404 it raises the request error for [/info]; against a
    server whose answer lacks [softwareVersion] it raises the validation
    error; and the request error is the one [_get] raises. *)
Lemma C7_witness :
  new down 3 "https://ids7" "secret" "app1" []
  = (Raise (TransportError ConnectionRefused), replicate 4 info_request ++ []) /\
  new (always not_found) 3 "https://ids7" "secret" "app1" []
  = (Raise (IDS7RequestError 404 "Not Found" "/info"), replicate 1 info_request ++ []) /\
  new (always info_incomplete) 3 "https://ids7" "secret" "app1" []
  = (Raise ValidationError, replicate 1 info_request ++ []) /\
  fst (new (always not_found) 3 "https://ids7" "secret" "app1" [])
  = Raise (IDS7RequestError 404 "Not Found" "/info") /\
  exists r kw,
    last_outcome (always info_ok) [info_request] = Some (Received r) /\
    status_code r = 200 /\ json r = Some (JDict kw) /\
    conforms ApplicationInfo_shape kw = true.
Proof.
  split_and!.
  - apply (proj1 (C7_construction_fails_with_info_request down 3
                    "https://ids7" "secret" "app1" []) ConnectionRefused);
      reflexivity.
  - apply (proj1 (proj2 (C7_construction_fails_with_info_request (always not_found) 3
                           "https://ids7" "secret" "app1" [])) 0%nat not_found);
      [ lia | reflexivity | reflexivity | discriminate ].
  - apply (proj1 (proj2 (proj2 (C7_construction_fails_with_info_request
                                  (always info_incomplete) 3
                                  "https://ids7" "secret" "app1" [])))
             0%nat info_incomplete {[ "apiVersion" := JStr "1.0" ]});
      [ lia | reflexivity | reflexivity | reflexivity | reflexivity | ].
    apply (missing_field _ _ (mkField "softwareVersion" TStr true));
      [ right; left; reflexivity | reflexivity | reflexivity ].
  - apply (proj1 (proj2 (proj2 (proj2 (C7_construction_fails_with_info_request
                                         (always not_found) 3
                                         "https://ids7" "secret" "app1" []))))).
    vm_compute; reflexivity.
  - apply (proj2 (proj2 (proj2 (proj2 (C7_construction_fails_with_info_request
                                         (always info_ok) 3
                                         "https://ids7" "secret" "app1" []))))
             sample_client [info_request]).
    vm_compute; reflexivity.
Defined.

(** ** Scenarios *)

(** Section 8 of the specification: a 201 answer with id [abc123] to
    [create_results] comes back as a [ResultResponse] with that id. *)
Example create_results_scenario :
  fst (create_results by_method unit (fun _ => score) id_shape 3 tt
         (mkState sample_client [info_request]))
  = Ok (mkResultResponse {[ "id" := JStr "abc123" ]}).
Proof. vm_compute; reflexivity. Qed.

(** A 404 to [get_results] is the request error with the status, the body
    text and the path. *)
Example get_results_not_found :
  fst (get_results (always not_found) id_shape 3 "r1" (mkState sample_client []))
  = Raise (IDS7RequestError 404 "Not Found" "/application/app1/results/r1").
Proof. vm_compute; reflexivity. Qed.

(** A 200 to [create_results] is a request error too: POST expects 201. *)
Example create_results_expects_201 :
  fst (create_results (always found) unit (fun _ => score) id_shape 3 tt
         (mkState sample_client []))
  = Raise (IDS7RequestError 200 "{id: abc123}" "/applications/app1/results").
Proof. vm_compute; reflexivity. Qed.

(** A 200 with a valid body is no error, and a network that is down is a
    transport error, not a request error. *)
Example update_results_ok :
  fst (update_results (always found) unit (fun _ => score) id_shape 3 "r1" tt
         (mkState sample_client []))
  = Ok (mkResultResponse {[ "id" := JStr "abc123" ]}).
Proof. vm_compute; reflexivity. Qed.

Example get_image_info_network_down :
  get_image_info down id_shape 1 "s1" false false (mkState sample_client [])
  = (Raise (TransportError ConnectionRefused),
     mkState sample_client
       (replicate 2 (mkRequest GET "https://ids7/slides/s1/info" ∅ None
                       (_headers sample_client)))).
Proof. vm_compute; reflexivity. Qed.

(** The empty slide id, and one with a slash and a question mark, go into
    the path as they are; the call with the empty id returns like any
    other. *)
Example get_image_info_empty_slide_id :
  get_image_info (always found) id_shape 3 "" true true (mkState sample_client [])
  = (Ok (mkImageInfo {[ "id" := JStr "abc123" ]}),
     mkState sample_client
       [ mkRequest GET "https://ids7/slides//info"
           {[ "scope" := "extended"; "includePHI" := "true" ]} None
           (_headers sample_client) ]).
Proof. vm_compute; reflexivity. Qed.

Example get_image_info_unescaped_slide_id :
  map req_url
    (sent (snd (get_image_info (always found) id_shape 3 "a/b?c" false false
                  (mkState sample_client []))))
  = [ "https://ids7/slides/a/b?c/info" ].
Proof. vm_compute; reflexivity. Qed.

(** A base URL that ends in a slash gives two slashes. *)
Example trailing_slash_base_url :
  snd (new (always info_ok) 3 "https://ids7/" "secret" "app1" [])
  = [ mkRequest GET "https://ids7//info" ∅ None {[ "Authorization" := "Bearer secret" ]} ].
Proof. vm_compute; reflexivity. Qed.

(** ** The further properties at concrete servers *)

(** X2 at the server that answers [/info] with versions 1.0 and 7.2. *)
Lemma X2_witness :
  new (always info_ok) 3 "https://ids7" "secret" "app1" []
  = (Ok sample_client, [info_request]) /\
  exists v,
    ids7_version sample_client = Some v /\
    _headers sample_client !! "X-Sectra-ApiVersion" = Some (apiVersion v) /\
    _headers sample_client !! "X-Sectra-SoftwareVersion" = Some (softwareVersion v).
Proof.
  assert (H : new (always info_ok) 3 "https://ids7" "secret" "app1" []
              = (Ok sample_client, [info_request])) by (vm_compute; reflexivity).
  split; [exact H|].
  destruct (X2_stored_version_matches_headers (always info_ok) 3 _ _ _ _ _ _ H)
    as (v & r & kw & Hv & _ & _ & _ & _ & Ha & Hs & _).
  exists v. auto.
Defined.

(** X5 at servers whose bodies are no JSON: [_post] and [_put] without
    parsing return [None]; the body of [_get] raises the decoding error. *)
Lemma X5_witness :
  fst (_post (always accepted) 3 "/applications/app1/results" score false
         (mkState sample_client [])) = Ok None /\
  fst (_put (always plain_ok) 3 "/application/app1/results/r1" score false
         (mkState sample_client [])) = Ok None /\
  fst (_get_call (always plain_ok) "/info" ∅ (mkState sample_client []))
  = Raise JSONDecodeError.
Proof.
  split_and!.
  - rewrite (proj1 (X5_parse_response (always accepted) 3
                      "/applications/app1/results" ∅ score (mkState sample_client []))
               accepted); reflexivity.
  - rewrite (proj1 (proj2 (X5_parse_response (always plain_ok) 3
                             "/application/app1/results/r1" ∅ score
                             (mkState sample_client [])))
               plain_ok); reflexivity.
  - rewrite (proj1 (proj2 (proj2 (X5_parse_response (always plain_ok) 3
                                    "/info" ∅ score (mkState sample_client []))))
               plain_ok); reflexivity.
Defined.

(** X6 at a network whose first attempt times out and whose server then
    answers 200 with a JSON list. *)
Lemma X6_witness :
  outcome_of (flaky list_body) unit (fun _ => score) id_shape id_shape 3
    (GetResults unit "r1") (mkState sample_client [])
  = (Some TypeError,
     mkState sample_client
       (replicate 2 (request_of unit (fun _ => score) (GetResults unit "r1") sample_client)
          ++ [])) /\
  new (flaky list_body) 3 "https://ids7" "secret" "app1" []
  = (Raise TypeError, replicate 2 info_request ++ []).
Proof.
  destruct (X6_non_mapping_body_is_type_error (flaky list_body) unit (fun _ => score)
              id_shape id_shape 3) as [Hcall Hnew].
  split.
  - apply (Hcall (GetResults unit "r1") (mkState sample_client []) 1%nat list_body (JList []));
      [ lia | reflexivity | reflexivity | reflexivity | reflexivity | reflexivity ].
  - apply (Hnew "https://ids7" "secret" "app1" [] 1%nat list_body (JList []));
      [ lia | reflexivity | reflexivity | reflexivity | reflexivity | reflexivity ].
Defined.

(** X7 at a server that answers 200 with an object holding [id]:
    [get_results] returns. *)
Lemma X7_witness :
  fst (outcome_of (always found) unit (fun _ => score) id_shape id_shape 3
         (GetResults unit "r1") (mkState sample_client [])) = None.
Proof.
  apply (proj2 (X7_returns_exactly_on_valid_response (always found) unit (fun _ => score)
                  id_shape id_shape 3 (GetResults unit "r1") (mkState sample_client []))).
  exists found, {[ "id" := JStr "abc123" ]}.
  split_and!; vm_compute; reflexivity.
Defined.
